(** * lumail: the folder store [CMaildir] (src/maildir.cc)

    A shallow embedding of the class [CMaildir] and a verification of the
    statements its specification makes about it.

    The class reaches the outside world only through collaborators that live
    in other translation units (directory.h, file.h, message.h, imap_proxy.h)
    and through libc ([stat], [time], [rand], [gethostname]).  They are taken
    as a parameter, the record [World]; every call the methods make to one of
    them is appended to a trace, so that statements about "how many directory
    scans" or "which command reached the proxy" are statements about this
    trace. *)

From Stdlib Require Import ZArith String Ascii List Bool Lia DecimalString.
Import ListNotations.

Local Open Scope string_scope.
Local Open Scope Z_scope.

(** ** Machine integers *)

Module Int.

(** Two's complement reading of [z] on [bits] bits. *)
Definition wrap (bits : Z) (z : Z) : Z :=
  (z + 2 ^ (bits - 1)) mod 2 ^ bits - 2 ^ (bits - 1).

(** [int] is 32 bits wide and [time_t] 64 bits wide (LP64).  Signed
    overflow is undefined in C++ and an out-of-range conversion to [int] is
    implementation-defined; the model wraps, as the generated code does, and
    the theorems that depend on a value say when it stays in range. *)
Definition INT_MAX : Z := 2 ^ 31 - 1.
Definition TIME_MAX : Z := 2 ^ 63 - 1.
Definition to_int (z : Z) : Z := wrap 32 z.
Definition to_time_t (z : Z) : Z := wrap 64 z.

(** [ss << n] for an integer [n]: its decimal digits, with a leading minus
    sign when negative. *)
Definition dec (z : Z) : string := NilZero.string_of_int (Z.to_int z).

End Int.

(** The line feed of ["\n"]. *)
Definition nl : string := String (ascii_of_nat 10) EmptyString.

(** ** The data model *)

(** [CMessage]: built from a path ([new CMessage(std::string(file))]), read
    back with [path()]. *)
Record CMessage := { msg_path : string }.

Definition CMessageList := list CMessage.

(** The fields of [CMaildir].  The two counters are not written by the
    constructor: [None] is a field no statement has assigned yet. *)
Record CMaildir := {
  m_path : string;
  m_imap : bool;
  m_modified : Z;
  m_total : option Z;
  m_unread : option Z
}.

(** The collaborators, as the methods see them. *)
Record World := {
  (** [stat(dir, &st_buf)]: [None] when the call fails, else [st_mtime]. *)
  stat : string -> option Z;
  (** [CDirectory::entries(path)]. *)
  CDirectory_entries : string -> list string;
  (** [CFile::is_directory(file)]. *)
  CFile_is_directory : string -> bool;
  (** [CFile::is_maildir(path)]. *)
  CFile_is_maildir : string -> bool;
  (** [CFile::exists(path)]. *)
  CFile_exists : string -> bool;
  (** [CFile::copy(src, dst)]. *)
  CFile_copy : string -> string -> bool;
  (** [message->is_new()]. *)
  CMessage_is_new : CMessage -> bool;
  (** The name [gethostname] writes. *)
  gethostname : string;
  (** The value of the n-th call of [time(NULL)]. *)
  time : nat -> Z;
  (** The value of the n-th call of [rand()]. *)
  rand : nat -> Z;
  (** [proxy->read_imap_output(cmd)]. *)
  read_imap_output : string -> string
}.

(** Methods of the class whose entry is recorded. *)
Inductive Method :=
| Mupdate_cache | Mlast_modified | MgetMessages | MsaveMessage
| Mgenerate_filename | Mbump_mtime.

(** What a method does that can be observed from outside. *)
Inductive Event :=
| Enter (f : Method)
| Estat (dir : string)
| Eentries (path : string)
| Eis_directory (file : string)
| Eis_maildir (path : string)
| Eexists (path : string)
| Ecopy (src dst : string)
| Eis_new (msg : CMessage)
| Egethostname
| Etime
| Erand
| Eread_imap_output (cmd : string).

(** The object, the trace so far, and how often the clock and the random
    generator have been read. *)
Record Machine := {
  self : CMaildir;
  trace : list Event;
  time_calls : nat;
  rand_calls : nat
}.

(** ** A state monad over [Machine] *)

Definition M (A : Type) : Type := Machine -> A * Machine.

Definition ret {A} (a : A) : M A := fun m => (a, m).

Definition bind {A B} (c : M A) (k : A -> M B) : M B :=
  fun m => let (a, m') := c m in k a m'.

Declare Scope m_scope.
Delimit Scope m_scope with M.
Notation "x <- c ;; k" := (bind c (fun x => k))
  (at level 61, c at next level, right associativity) : m_scope.
Notation "c ;; k" := (bind c (fun _ => k))
  (at level 61, right associativity) : m_scope.
Local Open Scope m_scope.

(** [for (x : l) body], threading the locals [acc] the body updates. *)
Fixpoint foldM {A B} (body : B -> A -> M B) (l : list A) (acc : B) : M B :=
  match l with
  | [] => ret acc
  | x :: l' => acc' <- body acc x ;; foldM body l' acc'
  end.

Definition for_each {A} (l : list A) (body : A -> M unit) : M unit :=
  foldM (fun _ x => body x) l tt.

(** The machine after the events [t] happened. *)
Definition log (t : list Event) (m : Machine) : Machine :=
  {| self := self m; trace := trace m ++ t;
     time_calls := time_calls m; rand_calls := rand_calls m |}.

(** The machine after its object became [f]. *)
Definition with_self (f : CMaildir) (m : Machine) : Machine :=
  {| self := f; trace := trace m;
     time_calls := time_calls m; rand_calls := rand_calls m |}.

Definition emit (e : Event) : M unit := fun m => (tt, log [e] m).

Definition this {A} (field : CMaildir -> A) : M A :=
  fun m => (field (self m), m).

Definition modify (f : CMaildir -> CMaildir) : M unit :=
  fun m => (tt, with_self (f (self m)) m).

Definition set_m_modified (v : Z) (f : CMaildir) : CMaildir :=
  {| m_path := m_path f; m_imap := m_imap f; m_modified := v;
     m_total := m_total f; m_unread := m_unread f |}.

Definition set_m_total (v : option Z) (f : CMaildir) : CMaildir :=
  {| m_path := m_path f; m_imap := m_imap f; m_modified := m_modified f;
     m_total := v; m_unread := m_unread f |}.

Definition set_m_unread (v : option Z) (f : CMaildir) : CMaildir :=
  {| m_path := m_path f; m_imap := m_imap f; m_modified := m_modified f;
     m_total := m_total f; m_unread := v |}.

(** [m_unread++]: on a counter never assigned the result is as undefined as
    the operand. *)
Definition incr (v : option Z) : option Z :=
  match v with
  | Some n => Some (Int.to_int (n + 1))
  | None => None
  end.

(** A fresh machine around an object. *)
Definition boot (f : CMaildir) : Machine :=
  {| self := f; trace := []; time_calls := 0; rand_calls := 0 |}.

(** ** The class *)

(** [CMaildir::CMaildir(name, is_local)] (maildir.cc:50). *)
Definition new_CMaildir (name : string) (is_local : bool) : CMaildir :=
  {| m_path := name;
     m_imap := if is_local then false else true;
     m_modified := -1;
     m_total := None;
     m_unread := None |}.

Section Methods.

Variable w : World.

(** *** Calls to the collaborators *)

Definition sys_stat (dir : string) : M (option Z) :=
  emit (Estat dir) ;; ret (stat w dir).

Definition entries (path : string) : M (list string) :=
  emit (Eentries path) ;; ret (CDirectory_entries w path).

Definition is_directory (file : string) : M bool :=
  emit (Eis_directory file) ;; ret (CFile_is_directory w file).

Definition file_is_maildir (path : string) : M bool :=
  emit (Eis_maildir path) ;; ret (CFile_is_maildir w path).

Definition file_exists (path : string) : M bool :=
  emit (Eexists path) ;; ret (CFile_exists w path).

Definition file_copy (src dst : string) : M bool :=
  emit (Ecopy src dst) ;; ret (CFile_copy w src dst).

Definition is_new (msg : CMessage) : M bool :=
  emit (Eis_new msg) ;; ret (CMessage_is_new w msg).

(** [char host[1024] = {0}; gethostname(host, sizeof(host) - 1)]: at most
    1023 bytes of the name arrive in the buffer. *)
Definition sys_gethostname : M string :=
  emit Egethostname ;; ret (substring 0 1023 (gethostname w)).

Definition sys_time : M Z :=
  fun m => (time w (time_calls m),
            {| self := self m; trace := trace m ++ [Etime];
               time_calls := S (time_calls m); rand_calls := rand_calls m |}).

Definition sys_rand : M Z :=
  fun m => (rand w (rand_calls m),
            {| self := self m; trace := trace m ++ [Erand];
               time_calls := time_calls m; rand_calls := S (rand_calls m) |}).

Definition proxy_read_imap_output (cmd : string) : M string :=
  emit (Eread_imap_output cmd) ;; ret (read_imap_output w cmd).

(** *** Methods *)

(** [CMaildir::path] (maildir.cc:72). *)
Definition path : M string := this m_path.

(** [CMaildir::is_maildir] (maildir.cc:89). *)
Definition is_maildir : M bool := imap <- this m_imap ;; ret (negb imap).

(** [CMaildir::is_imap] (maildir.cc:98). *)
Definition is_imap : M bool := this m_imap.

(** [CMaildir::last_modified] (maildir.cc:169). *)
Definition last_modified : M Z :=
  emit (Enter Mlast_modified) ;;
  imap <- this m_imap ;;
  if imap then this m_modified
  else
    let last := 0 in
    p <- path ;;
    let dirs := [p ++ "/cur"; p ++ "/new"] in
    foldM (fun last dir =>
             st <- sys_stat dir ;;
             match st with
             | Some st_mtime =>
                 if st_mtime >? last then ret st_mtime else ret last
             | None => ret last
             end) dirs last.

(** [CMaildir::getMessages] (maildir.cc:216). *)
Definition getMessages : M CMessageList :=
  emit (Enter MgetMessages) ;;
  let result : CMessageList := [] in
  p <- this m_path ;;
  let dirs := [p ++ "/cur/"; p ++ "/new/"] in
  foldM (fun result path =>
           files <- entries path ;;
           foldM (fun result file =>
                    d <- is_directory file ;;
                    if negb d
                    then ret (result ++ [ {| msg_path := file |} ])%list
                    else ret result) files result) dirs result.

(** [CMaildir::update_cache] (maildir.cc:129). *)
Definition update_cache : M unit :=
  emit (Enter Mupdate_cache) ;;
  imap <- this m_imap ;;
  if imap then ret tt
  else
    last_mod <- last_modified ;;
    modified <- this m_modified ;;
    if last_mod =? modified then ret tt
    else
      modify (set_m_modified last_mod) ;;
      all <- getMessages ;;
      modify (set_m_total (Some (Int.to_int (Z.of_nat (length all))))) ;;
      modify (set_m_unread (Some 0)) ;;
      for_each all (fun message =>
                      n <- is_new message ;;
                      if n then modify (fun f => set_m_unread (incr (m_unread f)) f)
                      else ret tt).

(** [CMaildir::unread_messages] (maildir.cc:108). *)
Definition unread_messages : M (option Z) :=
  update_cache ;; this m_unread.

(** [CMaildir::total_messages] (maildir.cc:118). *)
Definition total_messages : M (option Z) :=
  update_cache ;; this m_total.

(** The body of [while (true)] in [generate_filename] (maildir.cc:345);
    [None] when [fuel] iterations did not reach the [return]. *)
Fixpoint generate_filename_loop (fuel : nat) (is_new : bool)
    (path hostname : string) : M (option string) :=
  match fuel with
  | O => ret None
  | S fuel' =>
      current_time <- sys_time ;;
      let ss := Int.dec current_time in
      let since_epoch := ss in
      let file := since_epoch in
      let file := file ++ "." in
      let file := file ++ hostname in
      x <- sys_rand ;;
      let r := Z.rem x 1000 in
      let ss := ss ++ Int.dec r in
      let file := file ++ ss in
      let file := file ++ ":2" in
      let file := if is_new then file ++ ",N" else file ++ ",S" in
      e <- file_exists (path ++ file) ;;
      if negb e then ret (Some (path ++ file))
      else generate_filename_loop fuel' is_new path hostname
  end.

(** [CMaildir::generate_filename] (maildir.cc:316). *)
Definition generate_filename (fuel : nat) (is_new : bool) : M (option string) :=
  emit (Enter Mgenerate_filename) ;;
  tmp <- path ;;
  let path := tmp in
  ok <- file_is_maildir path ;;
  if negb ok then ret (Some "")
  else
    let path := if is_new then path ++ "/new/" else path ++ "/cur/" in
    hostname <- sys_gethostname ;;
    generate_filename_loop fuel is_new path hostname.

(** [m_path.empty() == false && m_path.at(0) != '/'], the second operand
    evaluated only when the first holds. *)
Definition names_remote (p : string) : bool :=
  match p with
  | EmptyString => false
  | String c _ => negb (Ascii.eqb c "/"%char)
  end.

(** [CMaildir::saveMessage] (maildir.cc:265); [None] when the local path
    did not come back from [generate_filename]. *)
Definition saveMessage (fuel : nat) (msg : CMessage) : M (option bool) :=
  emit (Enter MsaveMessage) ;;
  imap <- this m_imap ;;
  p <- this m_path ;;
  if imap || names_remote p then
    let msg_path := msg_path msg in
    let folder := p in
    let cmd := "save_message " ++ msg_path ++ " " ++ folder ++ nl in
    out <- proxy_read_imap_output cmd ;;
    ret (Some true)
  else
    r <- generate_filename fuel false ;;
    match r with
    | Some path => ok <- file_copy (msg_path msg) path ;; ret (Some ok)
    | None => ret None
    end.

(** [CMaildir::bump_mtime] (maildir.cc:386). *)
Definition bump_mtime : M unit :=
  emit (Enter Mbump_mtime) ;;
  modify (fun f => set_m_modified (Int.to_time_t (m_modified f + 1)) f).

End Methods.

(** ** Reading a trace *)

(** The events of [m'] that [m] had not seen yet. *)
Definition fresh (m m' : Machine) : list Event :=
  skipn (length (trace m)) (trace m').

(** The paths handed to [CDirectory::entries], in order. *)
Definition listed (t : list Event) : list string :=
  flat_map (fun e => match e with Eentries p => [p] | _ => [] end) t.

(** The files handed to [CFile::is_directory], in order. *)
Definition probed (t : list Event) : list string :=
  flat_map (fun e => match e with Eis_directory p => [p] | _ => [] end) t.

(** The command lines handed to the proxy, in order. *)
Definition sent (t : list Event) : list string :=
  flat_map (fun e => match e with Eread_imap_output c => [c] | _ => [] end) t.

(** The copies asked of [CFile::copy], in order. *)
Definition copied (t : list Event) : list (string * string) :=
  flat_map (fun e => match e with Ecopy s d => [(s, d)] | _ => [] end) t.

Definition Method_eqb (f g : Method) : bool :=
  match f, g with
  | Mupdate_cache, Mupdate_cache | Mlast_modified, Mlast_modified
  | MgetMessages, MgetMessages | MsaveMessage, MsaveMessage
  | Mgenerate_filename, Mgenerate_filename | Mbump_mtime, Mbump_mtime => true
  | _, _ => false
  end.

(** How often the method [f] was entered. *)
Definition entered (f : Method) (t : list Event) : nat :=
  length (filter (fun e => match e with Enter g => Method_eqb f g | _ => false end) t).

(** One scan of the folder is one run of [getMessages]. *)
Definition scans (t : list Event) : nat := entered MgetMessages t.

(** ** What the enumeration is expected to be *)

(** The entries of [dir] that are not directories. *)
Definition files_in (w : World) (dir : string) : list string :=
  filter (fun file => negb (CFile_is_directory w file)) (CDirectory_entries w dir).

(** The trace of listing [dir] and classifying each of its entries. *)
Definition scan_of (w : World) (dir : string) : list Event :=
  Eentries dir :: map Eis_directory (CDirectory_entries w dir).

(** The messages of the folder at [p]: those of [cur/], then those of
    [new/]. *)
Definition messages_of (w : World) (p : string) : CMessageList :=
  map Build_CMessage (files_in w (p ++ "/cur/") ++ files_in w (p ++ "/new/")).

Definition getMessages_trace (w : World) (p : string) : list Event :=
  Enter MgetMessages :: scan_of w (p ++ "/cur/") ++ scan_of w (p ++ "/new/").

(** ** What the cache is expected to hold *)

(** What one subdirectory contributes to [last_modified]: its [st_mtime], or
    0 when [stat] fails. *)
Definition mtime_or_zero (w : World) (dir : string) : Z :=
  match stat w dir with
  | Some st_mtime => st_mtime
  | None => 0
  end.

(** The value [last_modified] computes for a local folder at [p]. *)
Definition newest (w : World) (p : string) : Z :=
  Z.max 0 (Z.max (mtime_or_zero w (p ++ "/cur")) (mtime_or_zero w (p ++ "/new"))).

(** The messages of [all] classified new. *)
Definition unread_of (w : World) (all : CMessageList) : CMessageList :=
  filter (CMessage_is_new w) all.

Definition last_modified_trace (f : CMaildir) : list Event :=
  Enter Mlast_modified
  :: (if m_imap f then [] else [Estat (m_path f ++ "/cur"); Estat (m_path f ++ "/new")]).

(** The object after a rescan that saw the time [last_mod]. *)
Definition rescanned (w : World) (last_mod : Z) (f : CMaildir) : CMaildir :=
  let all := messages_of w (m_path f) in
  {| m_path := m_path f;
     m_imap := m_imap f;
     m_modified := last_mod;
     m_total := Some (Int.to_int (Z.of_nat (length all)));
     m_unread := Nat.iter (length (unread_of w all)) incr (Some 0) |}.

Definition rescan_trace (w : World) (f : CMaildir) : list Event :=
  (getMessages_trace w (m_path f) ++ map Eis_new (messages_of w (m_path f)))%list.

(** ** What the filename loop is expected to do *)

(** The name one iteration builds from the clock value [t] and the random
    value [x], statement by statement as in the loop body. *)
Definition file_name (is_new : bool) (hostname : string) (t x : Z) : string :=
  let ss := Int.dec t in
  let file := ss in
  let file := file ++ "." in
  let file := file ++ hostname in
  let ss := ss ++ Int.dec (Z.rem x 1000) in
  let file := file ++ ss in
  let file := file ++ ":2" in
  if is_new then file ++ ",N" else file ++ ",S".

(** The path the iteration that reads the [i]-th clock value and the [j]-th
    random value tests and, if free, returns. *)
Definition candidate (w : World) (is_new : bool) (dir hostname : string)
    (i j : nat) : string :=
  dir ++ file_name is_new hostname (time w i) (rand w j).

(** The loop without its effects: the path it returns, if any, within
    [fuel] iterations starting at the clock reading [i] and the random
    reading [j], and the number of iterations it ran. *)
Fixpoint search (w : World) (is_new : bool) (dir hostname : string)
    (fuel i j : nat) : option string * nat :=
  match fuel with
  | O => (None, O)
  | S fuel' =>
      if negb (CFile_exists w (candidate w is_new dir hostname i j))
      then (Some (candidate w is_new dir hostname i j), 1%nat)
      else let r := search w is_new dir hostname fuel' (S i) (S j) in
           (fst r, S (snd r))
  end.

(** The trace of [n] iterations of the loop. *)
Fixpoint loop_trace (w : World) (is_new : bool) (dir hostname : string)
    (n i j : nat) : list Event :=
  match n with
  | O => []
  | S n' => Etime :: Erand :: Eexists (candidate w is_new dir hostname i j)
            :: loop_trace w is_new dir hostname n' (S i) (S j)
  end.

(** The machine after [n] more readings of the clock and of the random
    generator. *)
Definition ticked (n : nat) (m : Machine) : Machine :=
  {| self := self m; trace := trace m;
     time_calls := time_calls m + n; rand_calls := rand_calls m + n |}.

(** The directory [generate_filename] writes into. *)
Definition target_dir (is_new : bool) (p : string) : string :=
  if is_new then p ++ "/new/" else p ++ "/cur/".

(** The name the template
    [<seconds-since-epoch>.<hostname><random-0..999>:2,<flag>] describes for
    the time [t] and the random number [r]. *)
Definition template_name (is_new : bool) (hostname : string) (t r : Z) : string :=
  Int.dec t ++ "." ++ hostname ++ Int.dec r ++ ":2," ++ (if is_new then "N" else "S").

(** ** Callers *)

(** The condition under which the folder [f] is to be treated as remote by
    a save: built remote, or a path that is not empty and does not begin
    with [/]. *)
Definition routed_remote (f : CMaildir) : Prop :=
  m_imap f = true \/ (m_path f <> "" /\ get 0 (m_path f) <> Some "/"%char).

(** The paths handed to [CFile::exists], in order. *)
Definition tested (t : list Event) : list string :=
  flat_map (fun e => match e with Eexists p => [p] | _ => [] end) t.

(** The directories handed to [stat], in order. *)
Definition statted (t : list Event) : list string :=
  flat_map (fun e => match e with Estat d => [d] | _ => [] end) t.

(** The two count queries. *)
Inductive Query := Unread | Total.

Definition ask (w : World) (q : Query) : M (option Z) :=
  match q with
  | Unread => unread_messages w
  | Total => total_messages w
  end.

Definition cached (q : Query) (f : CMaildir) : option Z :=
  match q with
  | Unread => m_unread f
  | Total => m_total f
  end.

(** A call of a public method of the class. *)
Inductive Op :=
| Op_path | Op_is_maildir | Op_is_imap
| Op_unread_messages | Op_total_messages | Op_update_cache
| Op_last_modified | Op_getMessages
| Op_saveMessage (fuel : nat) (msg : CMessage)
| Op_generate_filename (fuel : nat) (is_new : bool)
| Op_bump_mtime.

(** The machine after the call [op], made in the world [w]. *)
Definition call (w : World) (op : Op) (m : Machine) : Machine :=
  match op with
  | Op_path => snd (path m)
  | Op_is_maildir => snd (is_maildir m)
  | Op_is_imap => snd (is_imap m)
  | Op_unread_messages => snd (unread_messages w m)
  | Op_total_messages => snd (total_messages w m)
  | Op_update_cache => snd (update_cache w m)
  | Op_last_modified => snd (last_modified w m)
  | Op_getMessages => snd (getMessages w m)
  | Op_saveMessage fuel msg => snd (saveMessage w fuel msg m)
  | Op_generate_filename fuel is_new => snd (generate_filename w fuel is_new m)
  | Op_bump_mtime => snd (bump_mtime m)
  end.

(** The machine after a sequence of calls, each in the world of its time. *)
Definition after (calls : list (World * Op)) (m : Machine) : Machine :=
  fold_left (fun m c => call (fst c) (snd c) m) calls m.

(** Built remote, and neither counter assigned. *)
Definition unassigned (f : CMaildir) : Prop :=
  m_imap f = true /\ m_total f = None /\ m_unread f = None.

(** No full stop in [s]. *)
Fixpoint no_dot (s : string) : bool :=
  match s with
  | EmptyString => true
  | String c s' => negb (Ascii.eqb c "."%char) && no_dot s'
  end.

(** ** Worlds to run the methods in *)

(** A local folder at [/home/u/Maildir] with one read and two unread
    messages. *)
Definition demo_dirs : list string :=
  [ "/home/u/Maildir/cur/."; "/home/u/Maildir/cur/..";
    "/home/u/Maildir/new/."; "/home/u/Maildir/new/.." ].

Definition demo_files : list string :=
  [ "/home/u/Maildir/cur/1.host:2,S";
    "/home/u/Maildir/new/2.host:2,N";
    "/home/u/Maildir/new/3.host:2,N" ].

Definition demo_world : World :=
  {| stat := fun dir =>
       if String.eqb dir "/home/u/Maildir/cur" then Some 100
       else if String.eqb dir "/home/u/Maildir/new" then Some 200
       else None;
     CDirectory_entries := fun p =>
       if String.eqb p "/home/u/Maildir/cur/"
       then [ "/home/u/Maildir/cur/."; "/home/u/Maildir/cur/..";
              "/home/u/Maildir/cur/1.host:2,S" ]
       else if String.eqb p "/home/u/Maildir/new/"
       then [ "/home/u/Maildir/new/."; "/home/u/Maildir/new/..";
              "/home/u/Maildir/new/2.host:2,N";
              "/home/u/Maildir/new/3.host:2,N" ]
       else [];
     CFile_is_directory := fun file => existsb (String.eqb file) demo_dirs;
     CFile_is_maildir := fun p => String.eqb p "/home/u/Maildir";
     CFile_exists := fun p => existsb (String.eqb p) (demo_dirs ++ demo_files);
     CFile_copy := fun _ _ => true;
     CMessage_is_new := fun msg => prefix "/home/u/Maildir/new/" (msg_path msg);
     gethostname := "host";
     time := fun n => 1700000000 + Z.of_nat n;
     rand := fun n => 123 + Z.of_nat n;
     read_imap_output := fun _ => "OK" |}.

(** The same folder with both subdirectories last written before 1970. *)
Definition old_world : World :=
  {| stat := fun dir =>
       if String.eqb dir "/home/u/Maildir/cur" then Some (-2)
       else if String.eqb dir "/home/u/Maildir/new" then Some (-1)
       else None;
     CDirectory_entries := CDirectory_entries demo_world;
     CFile_is_directory := CFile_is_directory demo_world;
     CFile_is_maildir := CFile_is_maildir demo_world;
     CFile_exists := CFile_exists demo_world;
     CFile_copy := CFile_copy demo_world;
     CMessage_is_new := CMessage_is_new demo_world;
     gethostname := gethostname demo_world;
     time := time demo_world;
     rand := rand demo_world;
     read_imap_output := read_imap_output demo_world |}.

(** The same folder when the first name [generate_filename] tries for
    [cur/] is taken. *)
Definition busy_world : World :=
  {| stat := stat demo_world;
     CDirectory_entries := CDirectory_entries demo_world;
     CFile_is_directory := CFile_is_directory demo_world;
     CFile_is_maildir := CFile_is_maildir demo_world;
     CFile_exists := fun p =>
       String.eqb p "/home/u/Maildir/cur/1700000000.host1700000000123:2,S"
       || CFile_exists demo_world p;
     CFile_copy := CFile_copy demo_world;
     CMessage_is_new := CMessage_is_new demo_world;
     gethostname := gethostname demo_world;
     time := time demo_world;
     rand := rand demo_world;
     read_imap_output := read_imap_output demo_world |}.

Definition demo_local : Machine := boot (new_CMaildir "/home/u/Maildir" true).
Definition demo_remote : Machine := boot (new_CMaildir "INBOX.Sent" false).
Definition demo_message : CMessage := {| msg_path := "/tmp/draft.eml" |}.

(** ** Further readings of the object and of a trace *)

(** An event that neither reaches the proxy nor copies a file. *)
Definition quiet (e : Event) : bool :=
  match e with
  | Eread_imap_output _ | Ecopy _ _ => false
  | _ => true
  end.

(** The counters are either both unassigned, or both assigned with the
    unread count between 0 and the total. *)
Definition counts_ok (f : CMaildir) : Prop :=
  match m_total f, m_unread f with
  | None, None => True
  | Some total, Some unread => 0 <= unread <= total
  | _, _ => False
  end.

(** The machine after [n] calls of [bump_mtime]. *)
Definition bumped (n : nat) (m : Machine) : Machine :=
  Nat.iter n (fun m => snd (bump_mtime m)) m.

(** The folder of [demo_world] when [cur/] and [new/] hold nothing but
    their [.] and [..]. *)
Definition empty_world : World :=
  {| stat := stat demo_world;
     CDirectory_entries := fun p =>
       if String.eqb p "/home/u/Maildir/cur/"
       then [ "/home/u/Maildir/cur/."; "/home/u/Maildir/cur/.." ]
       else if String.eqb p "/home/u/Maildir/new/"
       then [ "/home/u/Maildir/new/."; "/home/u/Maildir/new/.." ]
       else [];
     CFile_is_directory := CFile_is_directory demo_world;
     CFile_is_maildir := CFile_is_maildir demo_world;
     CFile_exists := CFile_exists demo_world;
     CFile_copy := CFile_copy demo_world;
     CMessage_is_new := CMessage_is_new demo_world;
     gethostname := gethostname demo_world;
     time := time demo_world;
     rand := rand demo_world;
     read_imap_output := read_imap_output demo_world |}.

(** The folder of [demo_world] while the clock stands still and [rand]
    repeats itself. *)
Definition frozen_world : World :=
  {| stat := stat demo_world;
     CDirectory_entries := CDirectory_entries demo_world;
     CFile_is_directory := CFile_is_directory demo_world;
     CFile_is_maildir := CFile_is_maildir demo_world;
     CFile_exists := CFile_exists demo_world;
     CFile_copy := CFile_copy demo_world;
     CMessage_is_new := CMessage_is_new demo_world;
     gethostname := gethostname demo_world;
     time := fun _ => 1700000000;
     rand := fun _ => 123;
     read_imap_output := read_imap_output demo_world |}.

(** A local folder whose path is no mail folder and has no [cur] or [new]
    that [stat] can reach. *)
Definition demo_missing : Machine := boot (new_CMaildir "/nonexistent" true).

(** * Properties *)

(** ** The monad and the machine *)

Lemma log_nil m : log [] m = m.
Proof. destruct m; unfold log; simpl. now rewrite app_nil_r. Qed.

Lemma log_log t1 t2 m : log t2 (log t1 m) = log (t1 ++ t2) m.
Proof. unfold log; simpl. now rewrite app_assoc. Qed.

Lemma with_self_log f t m : with_self f (log t m) = log t (with_self f m).
Proof. reflexivity. Qed.

Lemma with_self_with_self f g m : with_self f (with_self g m) = with_self f m.
Proof. reflexivity. Qed.

Lemma with_self_same m : with_self (self m) m = m.
Proof. now destruct m. Qed.

Lemma fresh_log t m : fresh m (log t m) = t.
Proof.
  unfold fresh, log; simpl.
  rewrite skipn_app, skipn_all, Nat.sub_diag. reflexivity.
Qed.

Lemma fresh_with_self_log f t m : fresh m (with_self f (log t m)) = t.
Proof. apply (fresh_log t m). Qed.

Lemma listed_app t1 t2 : listed (t1 ++ t2) = (listed t1 ++ listed t2)%list.
Proof. apply flat_map_app. Qed.

Lemma sent_app t1 t2 : sent (t1 ++ t2) = (sent t1 ++ sent t2)%list.
Proof. apply flat_map_app. Qed.

Lemma entered_app f t1 t2 : entered f (t1 ++ t2) = (entered f t1 + entered f t2)%nat.
Proof. unfold entered. now rewrite filter_app, length_app. Qed.

Lemma listed_probes l : listed (map Eis_directory l) = [].
Proof. induction l; simpl; auto. Qed.

Lemma probed_probes l : probed (map Eis_directory l) = l.
Proof. induction l; simpl; congruence. Qed.

Lemma entered_probes f l : entered f (map Eis_directory l) = 0%nat.
Proof. induction l; simpl; auto. Qed.

Lemma listed_scan_of w dir : listed (scan_of w dir) = [dir].
Proof. unfold scan_of; simpl. now rewrite listed_probes. Qed.

Lemma probed_app t1 t2 : probed (t1 ++ t2) = (probed t1 ++ probed t2)%list.
Proof. apply flat_map_app. Qed.

Lemma probed_scan_of w dir : probed (scan_of w dir) = CDirectory_entries w dir.
Proof. unfold scan_of; simpl. apply probed_probes. Qed.

Lemma entered_scan_of f w dir : entered f (scan_of w dir) = 0%nat.
Proof. unfold scan_of. apply (entered_probes f). Qed.

Lemma entered_is_new f l : entered f (map Eis_new l) = 0%nat.
Proof. induction l; simpl; auto. Qed.

Lemma listed_is_new l : listed (map Eis_new l) = [].
Proof. induction l; simpl; auto. Qed.

(** Running a computation one step at a time. *)

Lemma run_bind {A B} (c : M A) (k : A -> M B) m :
  bind c k m = k (fst (c m)) (snd (c m)).
Proof. unfold bind. now destruct (c m). Qed.

Lemma run_ret {A} (a : A) m : ret a m = (a, m).
Proof. reflexivity. Qed.

Lemma run_emit e m : emit e m = (tt, log [e] m).
Proof. reflexivity. Qed.

Lemma run_this {A} (field : CMaildir -> A) m : this field m = (field (self m), m).
Proof. reflexivity. Qed.

Lemma run_modify f m : modify f m = (tt, with_self (f (self m)) m).
Proof. reflexivity. Qed.

Lemma run_foldM_nil {A B} (body : B -> A -> M B) acc m :
  foldM body [] acc m = (acc, m).
Proof. reflexivity. Qed.

Lemma run_foldM_cons {A B} (body : B -> A -> M B) x l acc m :
  foldM body (x :: l) acc m
  = foldM body l (fst (body acc x m)) (snd (body acc x m)).
Proof. simpl. now rewrite run_bind. Qed.

Lemma run_sys_stat w dir m : sys_stat w dir m = (stat w dir, log [Estat dir] m).
Proof. reflexivity. Qed.

Lemma run_entries w p m :
  entries w p m = (CDirectory_entries w p, log [Eentries p] m).
Proof. reflexivity. Qed.

Lemma run_is_directory w file m :
  is_directory w file m = (CFile_is_directory w file, log [Eis_directory file] m).
Proof. reflexivity. Qed.

Lemma run_file_is_maildir w p m :
  file_is_maildir w p m = (CFile_is_maildir w p, log [Eis_maildir p] m).
Proof. reflexivity. Qed.

Lemma run_file_exists w p m :
  file_exists w p m = (CFile_exists w p, log [Eexists p] m).
Proof. reflexivity. Qed.

Lemma run_file_copy w s d m :
  file_copy w s d m = (CFile_copy w s d, log [Ecopy s d] m).
Proof. reflexivity. Qed.

Lemma run_is_new w msg m :
  is_new w msg m = (CMessage_is_new w msg, log [Eis_new msg] m).
Proof. reflexivity. Qed.

Lemma run_sys_gethostname w m :
  sys_gethostname w m = (substring 0 1023 (gethostname w), log [Egethostname] m).
Proof. reflexivity. Qed.

Lemma run_proxy w cmd m :
  proxy_read_imap_output w cmd m
  = (read_imap_output w cmd, log [Eread_imap_output cmd] m).
Proof. reflexivity. Qed.

Lemma run_path m : path m = (m_path (self m), m).
Proof. reflexivity. Qed.

Lemma self_log t m : self (log t m) = self m.
Proof. reflexivity. Qed.

Lemma self_with_self f m : self (with_self f m) = f.
Proof. reflexivity. Qed.

Create Rewrite HintDb run.
#[local] Hint Rewrite @run_bind @run_ret run_emit @run_this run_modify
  @run_foldM_nil @run_foldM_cons run_sys_stat run_entries run_is_directory
  run_file_is_maildir run_file_exists run_file_copy run_is_new
  run_sys_gethostname run_proxy run_path
  self_log self_with_self log_log with_self_log with_self_with_self : run.

Ltac run := repeat (progress (autorewrite with run; cbv beta; cbn [fst snd])).

(** ** Enumeration *)

(** The inner loop of [getMessages]: one classification per entry, one
    message appended per entry that is not a directory. *)
Lemma classify_run w files : forall result m,
  foldM (fun result file =>
           d <- is_directory w file ;;
           if negb d
           then ret (result ++ [ {| msg_path := file |} ])%list
           else ret result) files result m
  = ((result ++ map Build_CMessage
         (filter (fun file => negb (CFile_is_directory w file)) files))%list,
     log (map Eis_directory files) m).
Proof.
  induction files as [|file files IH]; intros result m.
  - run. simpl. now rewrite app_nil_r, log_nil.
  - rewrite run_foldM_cons. cbv beta. rewrite IH. simpl filter.
    run. destruct (CFile_is_directory w file); cbn [negb]; run.
    + reflexivity.
    + simpl. now rewrite <- List.app_assoc.
Qed.

Lemma getMessages_run w m :
  getMessages w m
  = (messages_of w (m_path (self m)),
     log (getMessages_trace w (m_path (self m))) m).
Proof.
  unfold getMessages, messages_of, getMessages_trace, files_in, scan_of.
  run. rewrite !classify_run. run. simpl.
  now rewrite map_app.
Qed.

(** ** The cache *)

Lemma last_modified_run w m :
  last_modified w m
  = (if m_imap (self m) then m_modified (self m)
     else newest w (m_path (self m)),
     log (last_modified_trace (self m)) m).
Proof.
  unfold last_modified, last_modified_trace, newest, mtime_or_zero.
  run. destruct (m_imap (self m)); run; [reflexivity|].
  destruct (stat w (m_path (self m) ++ "/cur")) as [c|];
    destruct (stat w (m_path (self m) ++ "/new")) as [n|]; run;
    repeat match goal with
           | |- context [?a >? ?b] => destruct (Z.gtb_spec a b); run
           end;
    autorewrite with run in *; cbn [fst snd] in *;
    simpl; f_equal; lia.
Qed.

Lemma set_m_unread_same f : set_m_unread (m_unread f) f = f.
Proof. now destruct f. Qed.

(** The counting loop of [update_cache]: one classification per message,
    one increment per message classified new. *)
Lemma count_loop_run w all : forall (u : unit) m,
  foldM (fun (_ : unit) message =>
           n <- is_new w message ;;
           if n then modify (fun f => set_m_unread (incr (m_unread f)) f)
           else ret tt) all u m
  = (tt, with_self
           (set_m_unread
              (Nat.iter (length (unread_of w all)) incr (m_unread (self m)))
              (self m))
           (log (map Eis_new all) m)).
Proof.
  induction all as [|message all IH]; intros [] m.
  - run. simpl. now rewrite set_m_unread_same, log_nil, with_self_same.
  - rewrite run_foldM_cons. cbv beta. rewrite IH. simpl unread_of.
    run. destruct (CMessage_is_new w message); run; simpl length.
    + now rewrite Nat.iter_succ_r.
    + reflexivity.
Qed.

Lemma count_run w all m :
  for_each all (fun message =>
                  n <- is_new w message ;;
                  if n then modify (fun f => set_m_unread (incr (m_unread f)) f)
                  else ret tt) m
  = (tt, with_self
           (set_m_unread
              (Nat.iter (length (unread_of w all)) incr (m_unread (self m)))
              (self m))
           (log (map Eis_new all) m)).
Proof. apply count_loop_run. Qed.

Lemma update_cache_run w m :
  update_cache w m
  = (tt,
     let f := self m in
     if m_imap f then log [Enter Mupdate_cache] m
     else if newest w (m_path f) =? m_modified f
          then log (Enter Mupdate_cache :: last_modified_trace f) m
          else with_self (rescanned w (newest w (m_path f)) f)
                 (log (Enter Mupdate_cache :: last_modified_trace f
                         ++ rescan_trace w f) m)).
Proof.
  unfold update_cache. run. cbv zeta.
  destruct (m_imap (self m)) eqn:Himap; run; [reflexivity|].
  rewrite last_modified_run. run. rewrite Himap.
  destruct (newest w (m_path (self m)) =? m_modified (self m)); run;
    [reflexivity|].
  rewrite getMessages_run. run. rewrite count_run. run.
  unfold rescanned, rescan_trace. f_equal. f_equal.
  cbn [app]. now rewrite <- !List.app_assoc.
Qed.

(** ** Counters that stay in range *)

Lemma to_int_in_range z : - 2 ^ 31 <= z <= Int.INT_MAX -> Int.to_int z = z.
Proof.
  unfold Int.to_int, Int.wrap, Int.INT_MAX.
  change (32 - 1) with 31. change (2 ^ 31) with 2147483648.
  change (2 ^ 32) with 4294967296. intros H.
  rewrite Z.mod_small; lia.
Qed.

Lemma to_time_t_in_range z : - 2 ^ 63 <= z <= Int.TIME_MAX -> Int.to_time_t z = z.
Proof.
  unfold Int.to_time_t, Int.wrap, Int.TIME_MAX.
  change (64 - 1) with 63. change (2 ^ 63) with 9223372036854775808.
  change (2 ^ 64) with 18446744073709551616. intros H.
  rewrite Z.mod_small; lia.
Qed.

Lemma iter_incr_in_range k :
  Z.of_nat k <= Int.INT_MAX -> Nat.iter k incr (Some 0) = Some (Z.of_nat k).
Proof.
  induction k as [|k IH]; intros H; [reflexivity|].
  simpl Nat.iter. rewrite IH by lia. simpl incr.
  rewrite to_int_in_range; [f_equal; lia|].
  unfold Int.INT_MAX in *. change (2 ^ 31) with 2147483648 in *. lia.
Qed.

Lemma to_int_succ z : Int.to_int (Int.to_int z + 1) = Int.to_int (z + 1).
Proof.
  unfold Int.to_int, Int.wrap. f_equal.
  replace ((z + 2 ^ (32 - 1)) mod 2 ^ 32 - 2 ^ (32 - 1) + 1 + 2 ^ (32 - 1))
    with ((z + 2 ^ (32 - 1)) mod 2 ^ 32 + 1) by lia.
  rewrite Zplus_mod_idemp_l. f_equal. lia.
Qed.

(** Counting up from 0 with [int] increments gives the count as an [int]. *)
Lemma iter_incr k : Nat.iter k incr (Some 0) = Some (Int.to_int (Z.of_nat k)).
Proof.
  induction k as [|k IH]; [reflexivity|].
  simpl Nat.iter. rewrite IH. simpl incr. rewrite to_int_succ.
  do 2 f_equal. lia.
Qed.

Lemma unread_of_le w all : (length (unread_of w all) <= length all)%nat.
Proof. apply filter_length_le. Qed.

(** ** Statements about the enumeration *)

Example getMessages_demo :
  map msg_path (fst (getMessages demo_world demo_local))
  = [ "/home/u/Maildir/cur/1.host:2,S";
      "/home/u/Maildir/new/2.host:2,N";
      "/home/u/Maildir/new/3.host:2,N" ].
Proof. reflexivity. Qed.

(** C5.  [getMessages] hands exactly the two paths [cur/] and [new/] under
    the folder path to the directory scanner, classifies every entry it gets
    back with [CFile::is_directory] and with nothing else, and returns one
    message per entry that is not a directory, [cur/] first: an entry is kept
    if and only if the classification says it is not a directory, whatever
    its name, and the size of the result is the number of such entries in the
    two subdirectories together.  The object is left as it was. *)
Theorem getMessages_enumerates w m :
  let p := m_path (self m) in
  let cur := CDirectory_entries w (p ++ "/cur/") in
  let new := CDirectory_entries w (p ++ "/new/") in
  let keep := fun file => negb (CFile_is_directory w file) in
  let r := getMessages w m in
  listed (fresh m (snd r)) = [p ++ "/cur/"; p ++ "/new/"]
  /\ probed (fresh m (snd r)) = (cur ++ new)%list
  /\ fst r = map Build_CMessage (filter keep cur ++ filter keep new)
  /\ (forall file, In file (cur ++ new) ->
        (In {| msg_path := file |} (fst r) <-> CFile_is_directory w file = false))
  /\ length (fst r) = (length (filter keep cur) + length (filter keep new))%nat
  /\ self (snd r) = self m.
Proof.
  cbv zeta. rewrite getMessages_run. cbn [fst snd]. rewrite fresh_log.
  unfold getMessages_trace, messages_of, files_in.
  repeat split.
  - change (Enter MgetMessages :: ?t) with ([Enter MgetMessages] ++ t)%list.
    now rewrite !listed_app, !listed_scan_of.
  - change (Enter MgetMessages :: ?t) with ([Enter MgetMessages] ++ t)%list.
    now rewrite !probed_app, !probed_scan_of.
  - intros Hin. apply in_map_iff in Hin as (file' & Heq & Hin).
    injection Heq as ->. rewrite <- filter_app in Hin.
    apply filter_In in Hin as [_ Hin]. now apply negb_true_iff.
  - intros Hdir. apply in_map. rewrite <- filter_app.
    apply filter_In. split; [assumption|]. now rewrite Hdir.
  - now rewrite length_map, length_app.
Qed.

(** ** Statements about the cache *)

Example total_messages_demo :
  fst (total_messages demo_world demo_local) = Some 3.
Proof. reflexivity. Qed.

Example unread_messages_demo :
  fst (unread_messages demo_world demo_local) = Some 2.
Proof. reflexivity. Qed.

(** C3.  [update_cache] does nothing to a remote folder.  On a local folder
    whose [last_modified()] equals [m_modified] it returns with the object
    unchanged and without a scan.  Otherwise it stores the fresh time in
    [m_modified], scans once, and sets [m_total] to the size of what
    [getMessages] returns and [m_unread] to the number of those messages
    that [is_new] classifies new, both as [int]s: they are these numbers
    themselves whenever the size of the enumeration is an [int]. *)
Theorem update_cache_spec w m :
  let f := self m in
  let m' := snd (update_cache w m) in
  let last_mod := fst (last_modified w m) in
  let all := fst (getMessages w m) in
  (m_imap f = true -> self m' = f /\ fresh m m' = [Enter Mupdate_cache])
  /\ (m_imap f = false -> last_mod = m_modified f ->
        self m' = f /\ scans (fresh m m') = 0%nat /\ listed (fresh m m') = [])
  /\ (m_imap f = false -> last_mod <> m_modified f ->
        m_path (self m') = m_path f
        /\ m_imap (self m') = false
        /\ m_modified (self m') = last_mod
        /\ scans (fresh m m') = 1%nat
        /\ m_total (self m') = Some (Int.to_int (Z.of_nat (length all)))
        /\ m_unread (self m')
           = Some (Int.to_int
                     (Z.of_nat (length (filter (CMessage_is_new w) all))))
        /\ (Z.of_nat (length all) <= Int.INT_MAX ->
            m_total (self m') = Some (Z.of_nat (length all))
            /\ m_unread (self m')
               = Some (Z.of_nat (length (filter (CMessage_is_new w) all))))).
Proof.
  cbv zeta. rewrite update_cache_run, last_modified_run, getMessages_run.
  cbn [fst snd]. split; [|split].
  - intros ->. split; [reflexivity | apply fresh_log].
  - intros Himap Hhit. rewrite Himap in *. apply Z.eqb_eq in Hhit.
    rewrite Hhit, fresh_log. unfold last_modified_trace. rewrite Himap.
    now repeat split.
  - intros Himap Hmiss. rewrite Himap in *. apply Z.eqb_neq in Hmiss.
    rewrite Hmiss, fresh_with_self_log, self_with_self.
    cbn [rescanned m_path m_imap m_modified m_total m_unread].
    do 3 (split; [reflexivity || exact Himap|]).
    split; [|split; [reflexivity|split; [apply iter_incr|]]].
    + unfold last_modified_trace, rescan_trace, getMessages_trace, scans.
      rewrite Himap.
      change (Enter Mupdate_cache :: ?t) with ([Enter Mupdate_cache] ++ t)%list.
      change (Enter MgetMessages :: ?t) with ([Enter MgetMessages] ++ t)%list.
      rewrite !entered_app, !entered_scan_of, entered_is_new. reflexivity.
    + intros Hfit. split.
      * now rewrite to_int_in_range by (unfold Int.INT_MAX in *; lia).
      * apply iter_incr_in_range.
        pose proof (unread_of_le w (messages_of w (m_path (self m)))).
        unfold unread_of in *. lia.
Qed.

Lemma update_cache_spec_witness :
  let m' := snd (update_cache demo_world demo_local) in
  m_modified (self m') = 200 /\ m_total (self m') = Some 3
  /\ m_unread (self m') = Some 2.
Proof.
  destruct (update_cache_spec demo_world demo_local) as (_ & _ & H).
  destruct (H eq_refl ltac:(vm_compute; discriminate))
    as (_ & _ & Hm & _ & _ & _ & Hc).
  destruct (Hc ltac:(vm_compute; discriminate)) as [Ht Hu].
  cbv zeta. split; [exact Hm | split; [exact Ht | exact Hu]].
Defined.

(** ** The filename loop *)

Lemma ticked_0 m : ticked 0 m = m.
Proof. destruct m; unfold ticked; simpl. now rewrite !Nat.add_0_r. Qed.

Lemma machine_eq f t a b t' a' b' :
  t = t' -> a = a' -> b = b' ->
  {| self := f; trace := t; time_calls := a; rand_calls := b |}
  = {| self := f; trace := t'; time_calls := a'; rand_calls := b' |}.
Proof. now intros -> -> ->. Qed.

(** One iteration: the clock and the generator are read once each, the
    candidate is tested, and the loop returns it or goes round again. *)
Lemma generate_filename_loop_step w is_new dir hostname fuel m :
  generate_filename_loop w (S fuel) is_new dir hostname m
  = (let p := candidate w is_new dir hostname (time_calls m) (rand_calls m) in
     let m1 := log [Etime; Erand; Eexists p] (ticked 1 m) in
     if negb (CFile_exists w p) then (Some p, m1)
     else generate_filename_loop w fuel is_new dir hostname m1).
Proof.
  cbn [generate_filename_loop].
  cbv beta zeta delta [bind sys_time sys_rand file_exists emit ret candidate
                         file_name log ticked].
  cbn [self trace time_calls rand_calls].
  assert (Ht : ((trace m ++ [Etime]) ++ [Erand])%list
               = (trace m ++ [Etime; Erand])%list)
    by now rewrite <- List.app_assoc.
  destruct is_new;
    match goal with
    | |- context [CFile_exists w ?p] => destruct (CFile_exists w p)
    end; cbn [negb]; f_equal; apply machine_eq;
    rewrite <- ?List.app_assoc; try reflexivity; lia.
Qed.

Lemma generate_filename_loop_run w is_new dir hostname fuel : forall m,
  generate_filename_loop w fuel is_new dir hostname m
  = (let r := search w is_new dir hostname fuel (time_calls m) (rand_calls m) in
     (fst r,
      log (loop_trace w is_new dir hostname (snd r) (time_calls m) (rand_calls m))
        (ticked (snd r) m))).
Proof.
  induction fuel as [|fuel IH]; intros m.
  - simpl. now rewrite ticked_0, log_nil.
  - rewrite generate_filename_loop_step. cbv zeta. cbn [search].
    destruct (CFile_exists w (candidate w is_new dir hostname
                                (time_calls m) (rand_calls m))); cbn [negb].
    + rewrite IH. cbv zeta. unfold log, ticked.
      cbn [fst snd self trace time_calls rand_calls loop_trace].
      rewrite !Nat.add_1_r. f_equal.
      apply machine_eq; rewrite <- ?List.app_assoc; try reflexivity; lia.
    + reflexivity.
Qed.

Lemma generate_filename_run w fuel is_new m :
  generate_filename w fuel is_new m
  = (let p := m_path (self m) in
     if CFile_is_maildir w p
     then
       let r := search w is_new (target_dir is_new p)
                  (substring 0 1023 (gethostname w)) fuel
                  (time_calls m) (rand_calls m) in
       (fst r,
        log ([Enter Mgenerate_filename; Eis_maildir p; Egethostname]
               ++ loop_trace w is_new (target_dir is_new p)
                    (substring 0 1023 (gethostname w)) (snd r)
                    (time_calls m) (rand_calls m))
          (ticked (snd r) m))
     else (Some "", log [Enter Mgenerate_filename; Eis_maildir p] m)).
Proof.
  unfold generate_filename. run. cbv zeta.
  destruct (CFile_is_maildir w (m_path (self m))); cbn [negb]; run;
    [|reflexivity].
  rewrite generate_filename_loop_run. cbv zeta.
  unfold target_dir. destruct is_new; f_equal;
    unfold log, ticked; cbn [self trace time_calls rand_calls];
    apply machine_eq; rewrite <- ?List.app_assoc; reflexivity.
Qed.

(** What [search] finds. *)

Lemma search_found w is_new dir hostname : forall fuel i j k,
  (forall a, (a < k)%nat ->
     CFile_exists w (candidate w is_new dir hostname (i + a) (j + a)) = true) ->
  CFile_exists w (candidate w is_new dir hostname (i + k) (j + k)) = false ->
  (k < fuel)%nat ->
  search w is_new dir hostname fuel i j
  = (Some (candidate w is_new dir hostname (i + k) (j + k)), S k).
Proof.
  induction fuel as [|fuel IH]; intros i j k Hbusy Hfree Hk; [lia|].
  cbn [search]. destruct k as [|k].
  - rewrite !Nat.add_0_r in Hfree. rewrite Hfree. cbn [negb].
    now rewrite !Nat.add_0_r.
  - pose proof (Hbusy 0%nat ltac:(lia)) as H0.
    rewrite !Nat.add_0_r in H0. rewrite H0. cbn [negb].
    rewrite (IH (S i) (S j) k).
    + cbn [fst snd]. now rewrite !Nat.add_succ_r.
    + intros a Ha. specialize (Hbusy (S a) ltac:(lia)).
      now rewrite !Nat.add_succ_r in Hbusy.
    + now rewrite !Nat.add_succ_r in Hfree.
    + lia.
Qed.

Lemma search_sound w is_new dir hostname : forall fuel i j p n,
  search w is_new dir hostname fuel i j = (Some p, n) ->
  exists k, n = S k
    /\ p = candidate w is_new dir hostname (i + k) (j + k)
    /\ CFile_exists w p = false
    /\ forall a, (a < k)%nat ->
         CFile_exists w (candidate w is_new dir hostname (i + a) (j + a)) = true.
Proof.
  induction fuel as [|fuel IH]; intros i j p n H; [discriminate|].
  cbn [search] in H.
  destruct (CFile_exists w (candidate w is_new dir hostname i j)) eqn:He;
    cbn [negb] in H.
  - destruct (search w is_new dir hostname fuel (S i) (S j)) as [r n'] eqn:Hs.
    cbn [fst snd] in H. injection H as -> <-.
    destruct (IH _ _ _ _ Hs) as (k & -> & -> & Hfree & Hbusy).
    exists (S k). rewrite !Nat.add_succ_r. repeat split; auto.
    intros [|a] Ha.
    + now rewrite !Nat.add_0_r.
    + rewrite !Nat.add_succ_r. apply Hbusy. lia.
  - injection H as <- <-. exists 0%nat. rewrite !Nat.add_0_r.
    repeat split; auto. intros a Ha. lia.
Qed.

Lemma search_none w is_new dir hostname : forall fuel i j,
  (forall a, CFile_exists w (candidate w is_new dir hostname (i + a) (j + a)) = true) ->
  search w is_new dir hostname fuel i j = (None, fuel).
Proof.
  induction fuel as [|fuel IH]; intros i j Hbusy; [reflexivity|].
  cbn [search]. pose proof (Hbusy 0%nat) as H0.
  rewrite !Nat.add_0_r in H0. rewrite H0. cbn [negb].
  rewrite IH; [reflexivity|].
  intros a. specialize (Hbusy (S a)). now rewrite !Nat.add_succ_r in Hbusy.
Qed.

Lemma sent_loop_trace w is_new dir hostname : forall n i j,
  sent (loop_trace w is_new dir hostname n i j) = [].
Proof. induction n; intros i j; simpl; auto. Qed.

Lemma entered_loop_trace f w is_new dir hostname : forall n i j,
  entered f (loop_trace w is_new dir hostname n i j) = 0%nat.
Proof.
  induction n; intros i j; [reflexivity|].
  cbn [loop_trace]. apply (IHn (S i) (S j)).
Qed.

(** ** Saving *)

Lemma saveMessage_run w fuel msg m :
  saveMessage w fuel msg m
  = (let f := self m in
     if m_imap f || names_remote (m_path f)
     then (Some true,
           log [Enter MsaveMessage;
                Eread_imap_output
                  ("save_message " ++ msg_path msg ++ " " ++ m_path f ++ nl)] m)
     else
       let r := generate_filename w fuel false (log [Enter MsaveMessage] m) in
       match fst r with
       | Some path => (Some (CFile_copy w (msg_path msg) path),
                       log [Ecopy (msg_path msg) path] (snd r))
       | None => (None, snd r)
       end).
Proof.
  unfold saveMessage. run. cbv zeta.
  destruct (m_imap (self m) || names_remote (m_path (self m))); run;
    [reflexivity|].
  destruct (fst (generate_filename w fuel false (log [Enter MsaveMessage] m)));
    run; reflexivity.
Qed.

Lemma bump_mtime_run m :
  bump_mtime m
  = (tt, with_self (set_m_modified (Int.to_time_t (m_modified (self m) + 1)) (self m))
           (log [Enter Mbump_mtime] m)).
Proof. unfold bump_mtime. run. reflexivity. Qed.

Lemma fresh_of m m' t : trace m' = (trace m ++ t)%list -> fresh m m' = t.
Proof.
  unfold fresh. intros ->.
  now rewrite skipn_app, skipn_all, Nat.sub_diag.
Qed.

Lemma names_remote_spec p :
  names_remote p = true <-> p <> "" /\ get 0 p <> Some "/"%char.
Proof.
  destruct p as [|c p]; simpl.
  - split; [discriminate | intros [H _]; now elim H].
  - rewrite negb_true_iff, Ascii.eqb_neq. split.
    + intros H. split; [discriminate | congruence].
    + intros [_ H] ->. now apply H.
Qed.

Lemma routed_remote_spec f :
  routed_remote f <-> m_imap f || names_remote (m_path f) = true.
Proof.
  unfold routed_remote. rewrite orb_true_iff, names_remote_spec. tauto.
Qed.

Lemma generate_filename_effects w fuel is_new m :
  let m' := snd (generate_filename w fuel is_new m) in
  self m' = self m
  /\ exists t, trace m' = (trace m ++ t)%list
       /\ sent t = []
       /\ entered Mgenerate_filename t = 1%nat
       /\ entered Mbump_mtime t = 0%nat.
Proof.
  cbv zeta. rewrite generate_filename_run. cbv zeta.
  destruct (CFile_is_maildir w (m_path (self m))); cbn [snd].
  - split; [reflexivity|]. eexists. split; [reflexivity|].
    rewrite sent_app, !entered_app, sent_loop_trace, !entered_loop_trace.
    now repeat split.
  - split; [reflexivity|]. eexists. split; [reflexivity|]. now repeat split.
Qed.

Example saveMessage_remote_demo :
  saveMessage demo_world 0 demo_message demo_remote
  = (Some true,
     log [Enter MsaveMessage;
          Eread_imap_output ("save_message /tmp/draft.eml INBOX.Sent" ++ nl)]
       demo_remote).
Proof. reflexivity. Qed.

Example saveMessage_local_demo :
  fst (saveMessage demo_world 1 demo_message demo_local) = Some true
  /\ copied (trace (snd (saveMessage demo_world 1 demo_message demo_local)))
     = [("/tmp/draft.eml", "/home/u/Maildir/cur/1700000000.host1700000000123:2,S")].
Proof. split; reflexivity. Qed.

(** C1.  [saveMessage] sends a command to the proxy if and only if the
    folder was built remote or its path is not empty and does not begin with
    [/].  When it does, it returns true and what it does is exactly one
    round trip with the line [save_message <msgpath> <folder>\n]; when it
    does not, nothing reaches the proxy and the name comes from
    [generate_filename].  In particular the folder built from the path
    [myfolder] with [is_local] true sends exactly
    [save_message <msgpath> myfolder\n]. *)
Theorem saveMessage_routing w fuel msg m :
  let f := self m in
  let r := saveMessage w fuel msg m in
  let t := fresh m (snd r) in
  (sent t <> [] <-> routed_remote f)
  /\ (routed_remote f ->
        fst r = Some true
        /\ t = [Enter MsaveMessage;
                Eread_imap_output
                  ("save_message " ++ msg_path msg ++ " " ++ m_path f ++ nl)])
  /\ (~ routed_remote f ->
        sent t = [] /\ entered Mgenerate_filename t = 1%nat)
  /\ (let r0 := saveMessage w fuel msg (boot (new_CMaildir "myfolder" true)) in
      fst r0 = Some true
      /\ trace (snd r0)
         = [Enter MsaveMessage;
            Eread_imap_output ("save_message " ++ msg_path msg ++ " myfolder" ++ nl)]
      /\ sent (trace (snd r0))
         = ["save_message " ++ msg_path msg ++ " myfolder" ++ nl]).
Proof.
  cbv zeta.
  assert (Hremote : routed_remote (self m) ->
            fst (saveMessage w fuel msg m) = Some true
            /\ fresh m (snd (saveMessage w fuel msg m))
               = [Enter MsaveMessage;
                  Eread_imap_output
                    ("save_message " ++ msg_path msg ++ " "
                       ++ m_path (self m) ++ nl)]).
  { intros H. apply routed_remote_spec in H.
    rewrite saveMessage_run. cbv zeta. rewrite H. cbn [fst snd].
    now rewrite fresh_log. }
  assert (Hlocal : ~ routed_remote (self m) ->
            sent (fresh m (snd (saveMessage w fuel msg m))) = []
            /\ entered Mgenerate_filename
                 (fresh m (snd (saveMessage w fuel msg m))) = 1%nat).
  { intros H. rewrite routed_remote_spec in H. apply not_true_is_false in H.
    rewrite saveMessage_run. cbv zeta. rewrite H.
    destruct (generate_filename_effects w fuel false (log [Enter MsaveMessage] m))
      as (_ & t & Ht & Hsent & Hgen & _).
    cbv zeta in Ht. cbn [trace log] in Ht.
    destruct (fst (generate_filename w fuel false (log [Enter MsaveMessage] m)))
      as [path|]; cbn [snd].
    - rewrite (fresh_of m _ ([Enter MsaveMessage] ++ t ++ [Ecopy (msg_path msg) path])).
      + rewrite !sent_app, !entered_app, Hsent, Hgen. now split.
      + cbn [trace log]. rewrite Ht. now rewrite <- !List.app_assoc.
    - rewrite (fresh_of m _ ([Enter MsaveMessage] ++ t)).
      + rewrite !sent_app, !entered_app, Hsent, Hgen. now split.
      + rewrite Ht. now rewrite <- !List.app_assoc. }
  split; [|split; [exact Hremote | split; [exact Hlocal|]]].
  - split.
    + intros Hsent. destruct (m_imap (self m) || names_remote (m_path (self m))) eqn:E.
      * now apply routed_remote_spec.
      * elim Hsent. apply Hlocal. rewrite routed_remote_spec. congruence.
    + intros H. destruct (Hremote H) as [_ ->]. discriminate.
  - rewrite saveMessage_run. now repeat split.
Qed.

Lemma saveMessage_routing_witness :
  fst (saveMessage demo_world 0 demo_message demo_remote) = Some true
  /\ sent (fresh demo_local
             (snd (saveMessage demo_world 2 demo_message demo_local))) = [].
Proof.
  destruct (saveMessage_routing demo_world 0 demo_message demo_remote)
    as (_ & Hremote & _).
  destruct (saveMessage_routing demo_world 2 demo_message demo_local)
    as (_ & _ & Hlocal & _).
  split.
  - apply Hremote. left. reflexivity.
  - apply Hlocal.
    intros [H|[_ H]]; [discriminate H | apply H; reflexivity].
Defined.

(** C2, as the code has it.  Whenever [saveMessage] takes the remote path
    it returns true without calling [bump_mtime], and it leaves
    [m_modified], like every other field of the folder, exactly as it was
    before the call. *)
Theorem saveMessage_remote_keeps_mtime w fuel msg m :
  let f := self m in
  let r := saveMessage w fuel msg m in
  routed_remote f ->
  fst r = Some true
  /\ entered Mbump_mtime (fresh m (snd r)) = 0%nat
  /\ self (snd r) = f
  /\ m_modified (self (snd r)) = m_modified f.
Proof.
  cbv zeta. intros H. apply routed_remote_spec in H.
  rewrite saveMessage_run. cbv zeta. rewrite H. cbn [fst snd].
  rewrite fresh_log. now repeat split.
Qed.

Lemma saveMessage_remote_keeps_mtime_witness :
  m_modified (self (snd (saveMessage demo_world 0 demo_message demo_remote))) = -1.
Proof.
  destruct (saveMessage_remote_keeps_mtime demo_world 0 demo_message demo_remote)
    as (_ & _ & _ & H); [left; reflexivity | exact H].
Defined.

(** C2, as stated, fails: a remote save that returns true leaves
    [m_modified] where it was. *)
Lemma saveMessage_remote_mtime_not_advanced :
  let r := saveMessage demo_world 0 demo_message demo_remote in
  routed_remote (self demo_remote)
  /\ fst r = Some true
  /\ ~ (m_modified (self demo_remote) < m_modified (self (snd r))).
Proof.
  cbv zeta. split; [left; reflexivity|]. split; [reflexivity|].
  simpl. lia.
Qed.

(** ** Statements about the modification time *)

Example last_modified_demo : fst (last_modified demo_world demo_local) = 200.
Proof. reflexivity. Qed.

(** C6, as the code has it.  [last_modified] leaves the object as it was.
    On a remote folder it returns [m_modified] and consults nothing.  On a
    local folder it calls [stat] on [<path>/cur] and [<path>/new], in this
    order and on nothing else, and returns the largest of 0 and the times of
    those that can be [stat]'ed: a subdirectory that cannot be [stat]'ed
    contributes 0.  When no time is negative this is the larger of the two
    contributions, and it is 0 when neither subdirectory is accessible. *)
Theorem last_modified_spec w m :
  let f := self m in
  let r := last_modified w m in
  let cur := mtime_or_zero w (m_path f ++ "/cur") in
  let new := mtime_or_zero w (m_path f ++ "/new") in
  self (snd r) = f
  /\ (m_imap f = true ->
        fst r = m_modified f /\ statted (fresh m (snd r)) = [])
  /\ (m_imap f = false ->
        statted (fresh m (snd r)) = [m_path f ++ "/cur"; m_path f ++ "/new"]
        /\ fst r = Z.max 0 (Z.max cur new)
        /\ (0 <= cur -> 0 <= new -> fst r = Z.max cur new)
        /\ (stat w (m_path f ++ "/cur") = None ->
            stat w (m_path f ++ "/new") = None -> fst r = 0)).
Proof.
  cbv zeta. rewrite last_modified_run. cbn [fst snd]. rewrite fresh_log.
  unfold last_modified_trace, newest.
  split; [reflexivity|]. split; intros ->.
  - now split.
  - split; [reflexivity|]. split; [reflexivity|]. split.
    + lia.
    + unfold mtime_or_zero. now intros -> ->.
Qed.

Lemma last_modified_spec_witness :
  fst (last_modified demo_world demo_local) = Z.max 100 200
  /\ fst (last_modified demo_world demo_remote) = -1.
Proof.
  destruct (last_modified_spec demo_world demo_local) as (_ & _ & Hlocal).
  destruct (last_modified_spec demo_world demo_remote) as (_ & Hremote & _).
  split.
  - destruct (Hlocal eq_refl) as (_ & _ & H & _).
    apply H; vm_compute; discriminate.
  - destruct (Hremote eq_refl) as [H _]. exact H.
Defined.

(** C6, as stated, fails: with both subdirectories last written before 1970
    the larger of the two times is -1, and [last_modified] returns 0. *)
Lemma last_modified_not_the_larger_time :
  let f := self demo_local in
  m_imap f = false
  /\ stat old_world (m_path f ++ "/cur") = Some (-2)
  /\ stat old_world (m_path f ++ "/new") = Some (-1)
  /\ fst (last_modified old_world demo_local) = 0
  /\ fst (last_modified old_world demo_local)
     <> Z.max (mtime_or_zero old_world (m_path f ++ "/cur"))
              (mtime_or_zero old_world (m_path f ++ "/new")).
Proof. cbv zeta. repeat split. vm_compute. discriminate. Qed.

Example bump_mtime_demo :
  m_modified (self (snd (bump_mtime demo_local))) = 0.
Proof. reflexivity. Qed.

(** C9, as the code has it.  [bump_mtime] does not look at the kind of
    folder: on every folder, remote or local, whose [m_modified] is below the
    largest [time_t], it adds exactly one to [m_modified] and changes no
    other field. *)
Theorem bump_mtime_spec m :
  let f := self m in
  let f' := self (snd (bump_mtime m)) in
  - 2 ^ 63 <= m_modified f < Int.TIME_MAX ->
  m_modified f' = m_modified f + 1
  /\ m_path f' = m_path f
  /\ m_imap f' = m_imap f
  /\ m_total f' = m_total f
  /\ m_unread f' = m_unread f.
Proof.
  cbv zeta. intros H. rewrite bump_mtime_run. cbn.
  repeat split. apply to_time_t_in_range. unfold Int.TIME_MAX in *. lia.
Qed.

Lemma bump_mtime_spec_witness :
  m_modified (self (snd (bump_mtime demo_remote))) = -1 + 1
  /\ m_modified (self (snd (bump_mtime demo_local))) = -1 + 1.
Proof.
  split.
  - apply (bump_mtime_spec demo_remote).
    vm_compute. split; [discriminate | reflexivity].
  - apply (bump_mtime_spec demo_local).
    vm_compute. split; [discriminate | reflexivity].
Defined.

(** C9, as stated, fails: on a local folder [bump_mtime] changes the
    object. *)
Lemma bump_mtime_changes_local_folder :
  m_imap (self demo_local) = false
  /\ m_modified (self demo_local) = -1
  /\ m_modified (self (snd (bump_mtime demo_local))) = 0
  /\ self (snd (bump_mtime demo_local)) <> self demo_local.
Proof. repeat split. vm_compute. discriminate. Qed.

(** ** Statements about the queries *)

Lemma ask_run w q m :
  ask w q m = (cached q (self (snd (update_cache w m))), snd (update_cache w m)).
Proof. destruct q; unfold ask, unread_messages, total_messages; now run. Qed.

(** What one run of [update_cache] adds to the trace. *)
Lemma update_cache_effects w m :
  let m' := snd (update_cache w m) in
  let p := m_path (self m) in
  entered Mupdate_cache (fresh m m') = 1%nat
  /\ (scans (fresh m m') = 0%nat /\ listed (fresh m m') = []
      \/ scans (fresh m m') = 1%nat
         /\ listed (fresh m m') = [p ++ "/cur/"; p ++ "/new/"]).
Proof.
  cbv zeta. rewrite update_cache_run. cbv zeta. cbn [snd].
  destruct (m_imap (self m)) eqn:Himap.
  - rewrite fresh_log. split; [reflexivity | left; now split].
  - unfold last_modified_trace. rewrite Himap.
    destruct (newest w (m_path (self m)) =? m_modified (self m)).
    + rewrite fresh_log. split; [reflexivity | left; now split].
    + rewrite fresh_with_self_log. unfold rescan_trace, getMessages_trace, scans.
      change (Enter Mupdate_cache :: ?t) with ([Enter Mupdate_cache] ++ t)%list.
      change (Enter MgetMessages :: ?t) with ([Enter MgetMessages] ++ t)%list.
      rewrite !entered_app, !listed_app, !entered_scan_of, !listed_scan_of,
        !entered_is_new, listed_is_new.
      split; [reflexivity | right; now split].
Qed.

(** A second run that sees the time of the first changes nothing and does
    not scan. *)
Lemma update_cache_again w w' m :
  let m1 := snd (update_cache w m) in
  let m2 := snd (update_cache w' m1) in
  m_imap (self m) = false ->
  fst (last_modified w' m1) = fst (last_modified w m) ->
  self m2 = self m1
  /\ scans (fresh m1 m2) = 0%nat
  /\ listed (fresh m1 m2) = [].
Proof.
  cbv zeta. intros Himap.
  rewrite !last_modified_run. cbn [fst].
  rewrite (update_cache_run w' (snd (update_cache w m))).
  rewrite (update_cache_run w m). cbv zeta. cbn [snd]. rewrite Himap.
  destruct (newest w (m_path (self m)) =? m_modified (self m)) eqn:Hhit.
  - rewrite !self_log, Himap. intros ->. rewrite Hhit.
    rewrite fresh_log. unfold last_modified_trace. cbn [self log]. rewrite Himap.
    now repeat split.
  - rewrite self_with_self. cbn [rescanned m_imap m_path m_modified].
    rewrite Himap. intros ->. rewrite Z.eqb_refl.
    rewrite fresh_log. unfold last_modified_trace.
    cbn [rescanned m_imap m_path]. rewrite Himap. now repeat split.
Qed.

(** C8.  Each query is one run of [update_cache] followed by the return of
    the cached field, and scans the folder at most once: it either lists
    nothing or lists [cur/] and [new/] once each.  On a local folder, when
    [last_modified()] at the next query is what it was at this one, the next
    query, whichever of the two it is, scans nothing, leaves the object as it
    is and returns the field the first one left; asked the same question, it
    returns the same value. *)
Theorem queries_scan_at_most_once w q m :
  let r := ask w q m in
  let t := fresh m (snd r) in
  let p := m_path (self m) in
  r = (cached q (self (snd (update_cache w m))), snd (update_cache w m))
  /\ entered Mupdate_cache t = 1%nat
  /\ (scans t <= 1)%nat
  /\ (listed t = [] \/ listed t = [p ++ "/cur/"; p ++ "/new/"])
  /\ (forall w' q',
        m_imap (self m) = false ->
        fst (last_modified w' (snd r)) = fst (last_modified w m) ->
        let r' := ask w' q' (snd r) in
        let t' := fresh (snd r) (snd r') in
        entered Mupdate_cache t' = 1%nat
        /\ scans t' = 0%nat
        /\ listed t' = []
        /\ self (snd r') = self (snd r)
        /\ fst r' = cached q' (self (snd r))
        /\ (q' = q -> fst r' = fst r)).
Proof.
  cbv zeta. rewrite ask_run. cbn [fst snd].
  destruct (update_cache_effects w m) as (Hupd & Hscan).
  split; [reflexivity|]. split; [exact Hupd|]. split; [|split].
  - destruct Hscan as [[-> _]|[-> _]]; lia.
  - destruct Hscan as [[_ ->]|[_ ->]]; auto.
  - intros w' q' Himap Hsame. rewrite ask_run. cbn [fst snd].
    destruct (update_cache_again w w' m Himap Hsame) as (Hself & Hscans & Hlisted).
    destruct (update_cache_effects w' (snd (update_cache w m))) as (Hupd' & _).
    rewrite Hself. repeat split; auto. now intros ->.
Qed.

Lemma queries_scan_at_most_once_witness :
  let r := ask demo_world Total demo_local in
  let r' := ask demo_world Total (snd r) in
  fst r = Some 3 /\ scans (fresh (snd r) (snd r')) = 0%nat /\ fst r' = fst r.
Proof.
  cbv zeta.
  destruct (queries_scan_at_most_once demo_world Total demo_local)
    as (_ & _ & _ & _ & H).
  destruct (H demo_world Total eq_refl eq_refl) as (_ & Hscans & _ & _ & _ & Hsame).
  split; [reflexivity|]. split; [exact Hscans | exact (Hsame eq_refl)].
Defined.

(** ** The counters of a remote folder *)

Lemma call_keeps_unassigned w op m :
  unassigned (self m) -> unassigned (self (call w op m)).
Proof.
  intros (Himap & Htotal & Hunread).
  assert (Hupd : self (snd (update_cache w m)) = self m)
    by (rewrite update_cache_run; cbv zeta; now rewrite Himap).
  destruct op as [| | | | | | | |fuel msg|fuel b|]; cbn [call].
  - now split.
  - now split.
  - now split.
  - unfold unread_messages. run. rewrite Hupd. now split.
  - unfold total_messages. run. rewrite Hupd. now split.
  - rewrite Hupd. now split.
  - rewrite last_modified_run. now split.
  - rewrite getMessages_run. now split.
  - rewrite saveMessage_run. cbv zeta. rewrite Himap. now split.
  - destruct (generate_filename_effects w fuel b m) as [-> _]. now split.
  - rewrite bump_mtime_run. now split.
Qed.

Lemma after_keeps_unassigned calls : forall m,
  unassigned (self m) -> unassigned (self (after calls m)).
Proof.
  induction calls as [|[w op] calls IH]; intros m H; [exact H|].
  apply IH. now apply call_keeps_unassigned.
Qed.

Example total_messages_remote_demo :
  fst (total_messages demo_world
         (after [(demo_world, Op_saveMessage 0 demo_message);
                 (demo_world, Op_bump_mtime);
                 (demo_world, Op_unread_messages)] demo_remote)) = None.
Proof. reflexivity. Qed.

(** C10.  The constructor writes the path, the flag and [m_modified] (-1)
    and leaves both counters unassigned, for a local folder as for a remote
    one.  For a folder built remote, after any sequence of calls of the
    public methods, in whatever worlds, both counters are still unassigned:
    [update_cache] returns with the object as it is, and [total_messages]
    and [unread_messages] return fields that no statement has written. *)
Theorem remote_counts_never_assigned name (calls : list (World * Op)) w :
  let m := after calls (boot (new_CMaildir name false)) in
  (forall is_local,
     new_CMaildir name is_local
     = {| m_path := name; m_imap := negb is_local; m_modified := -1;
          m_total := None; m_unread := None |})
  /\ m_imap (self m) = true
  /\ m_total (self m) = None
  /\ m_unread (self m) = None
  /\ self (snd (update_cache w m)) = self m
  /\ fst (total_messages w m) = m_total (self m)
  /\ fst (unread_messages w m) = m_unread (self m)
  /\ fst (total_messages w m) = None
  /\ fst (unread_messages w m) = None.
Proof.
  cbv zeta.
  destruct (after_keeps_unassigned calls (boot (new_CMaildir name false)))
    as (Himap & Htotal & Hunread); [now split|].
  assert (Hupd : self (snd (update_cache w (after calls (boot (new_CMaildir name false)))))
                 = self (after calls (boot (new_CMaildir name false))))
    by (rewrite update_cache_run; cbv zeta; now rewrite Himap).
  split; [now intros []|].
  unfold total_messages, unread_messages. run. rewrite Hupd.
  now repeat split.
Qed.

(** ** Statements about the filename *)

Lemma tested_loop_trace w is_new dir hostname : forall n i j,
  tested (loop_trace w is_new dir hostname n i j)
  = map (fun a => candidate w is_new dir hostname (i + a) (j + a)) (seq 0 n).
Proof.
  induction n as [|n IH]; intros i j; [reflexivity|].
  cbn [loop_trace seq map]. cbn [tested flat_map app].
  fold (tested (loop_trace w is_new dir hostname n (S i) (S j))).
  rewrite IH, !Nat.add_0_r. f_equal.
  rewrite <- seq_shift, map_map. apply map_ext. intros a.
  now rewrite !Nat.add_succ_r.
Qed.

Example generate_filename_demo :
  fst (generate_filename demo_world 1 false demo_local)
  = Some "/home/u/Maildir/cur/1700000000.host1700000000123:2,S".
Proof. reflexivity. Qed.

Example generate_filename_busy_demo :
  fst (generate_filename busy_world 1 false demo_local) = None
  /\ fst (generate_filename busy_world 2 false demo_local)
     = Some "/home/u/Maildir/cur/1700000001.host1700000001124:2,S".
Proof. split; reflexivity. Qed.

Example generate_filename_remote_demo :
  fst (generate_filename demo_world 0 true demo_remote) = Some "".
Proof. reflexivity. Qed.

(** C7.  When the folder path fails [CFile::is_maildir], [generate_filename]
    returns the empty string at once.  Otherwise every iteration reads the
    clock and the random generator afresh and tests the target directory
    plus the name built from them: if the [k]-th such path is the first that
    does not exist, the call returns it after [k + 1] iterations, having
    tested the paths before it in turn; whatever it returns does not exist
    and is such a path; and while every path tried exists it does not
    return. *)
Theorem generate_filename_spec w is_new m :
  let p := m_path (self m) in
  let dir := target_dir is_new p in
  let hostname := substring 0 1023 (gethostname w) in
  let try := fun k =>
    dir ++ file_name is_new hostname (time w (time_calls m + k))
             (rand w (rand_calls m + k)) in
  (CFile_is_maildir w p = false ->
     forall fuel, fst (generate_filename w fuel is_new m) = Some "")
  /\ (CFile_is_maildir w p = true ->
      (forall k,
         (forall a, (a < k)%nat -> CFile_exists w (try a) = true) ->
         CFile_exists w (try k) = false ->
         forall fuel, (k < fuel)%nat ->
           let r := generate_filename w fuel is_new m in
           fst r = Some (try k)
           /\ tested (fresh m (snd r)) = map try (seq 0 (S k))
           /\ time_calls (snd r) = (time_calls m + S k)%nat
           /\ rand_calls (snd r) = (rand_calls m + S k)%nat)
      /\ (forall fuel path,
            fst (generate_filename w fuel is_new m) = Some path ->
            CFile_exists w path = false
            /\ exists k, path = try k
                 /\ forall a, (a < k)%nat -> CFile_exists w (try a) = true)
      /\ ((forall k, CFile_exists w (try k) = true) ->
          forall fuel, fst (generate_filename w fuel is_new m) = None)).
Proof.
  cbv zeta. split.
  - intros H fuel. rewrite generate_filename_run. cbv zeta. now rewrite H.
  - intros H. split; [|split].
    + intros k Hbusy Hfree fuel Hk.
      rewrite generate_filename_run. cbv zeta. rewrite H.
      rewrite (search_found w is_new _ _ fuel _ _ k Hbusy Hfree Hk).
      cbn [fst snd]. split; [reflexivity|]. split; [|now split].
      erewrite fresh_of; [|reflexivity].
      unfold tested. rewrite flat_map_app. fold tested.
      rewrite tested_loop_trace. reflexivity.
    + intros fuel path. rewrite generate_filename_run. cbv zeta. rewrite H.
      cbn [fst].
      destruct (search w is_new (target_dir is_new (m_path (self m)))
                  (substring 0 1023 (gethostname w)) fuel
                  (time_calls m) (rand_calls m)) as [r n] eqn:Hs.
      cbn [fst]. intros ->.
      destruct (search_sound _ _ _ _ _ _ _ _ _ Hs) as (k & _ & -> & Hfree & Hbusy).
      split; [exact Hfree|]. exists k. split; [reflexivity | exact Hbusy].
    + intros Hbusy fuel. rewrite generate_filename_run. cbv zeta. rewrite H.
      now rewrite (search_none w is_new _ _ fuel _ _ Hbusy).
Qed.

Lemma generate_filename_spec_witness :
  fst (generate_filename busy_world 2 false demo_local)
  = Some "/home/u/Maildir/cur/1700000001.host1700000001124:2,S"
  /\ fst (generate_filename demo_world 0 true demo_remote) = Some "".
Proof.
  destruct (generate_filename_spec busy_world false demo_local) as (_ & Hok).
  destruct (generate_filename_spec demo_world true demo_remote) as (Hbad & _).
  split.
  - destruct (Hok eq_refl) as (Hfound & _).
    apply (Hfound 1%nat).
    + intros [|a] Ha; [reflexivity | lia].
    + reflexivity.
    + lia.
  - apply Hbad. reflexivity.
Defined.

(** *** Names and the template *)


Lemma length_append (a b : string) :
  String.length (a ++ b) = (String.length a + String.length b)%nat.
Proof. induction a as [|x a IH]; simpl; congruence. Qed.


Lemma no_dot_uint d : no_dot (NilEmpty.string_of_uint d) = true.
Proof. induction d; simpl; auto. Qed.

Lemma no_dot_dec t : no_dot (Int.dec t) = true.
Proof.
  unfold Int.dec.
  destruct (Z.to_int t) as [d|d]; simpl; destruct d; simpl;
    now rewrite ?no_dot_uint.
Qed.

(** A string is cut at its first full stop in one way only. *)
Lemma split_at_dot : forall a a' b b',
  no_dot a = true -> no_dot a' = true ->
  a ++ String "." b = a' ++ String "." b' -> a = a' /\ b = b'.
Proof.
  induction a as [|x a IH]; intros [|x' a'] b b'; simpl; intros Ha Ha' H.
  - injection H as ->. now split.
  - injection H as <- _. discriminate Ha'.
  - injection H as -> _. discriminate Ha.
  - injection H as -> H.
    apply andb_true_iff in Ha as [_ Ha]. apply andb_true_iff in Ha' as [_ Ha'].
    destruct (IH _ _ _ Ha Ha' H) as [-> ->]. now split.
Qed.

Lemma dec_short x : 0 <= x <= 999 -> (String.length (Int.dec x) <= 3)%nat.
Proof.
  intros Hx.
  assert (Hall : forallb (fun n => String.length (Int.dec (Z.of_nat n)) <=? 3)%nat
                   (seq 0 1000) = true) by (vm_compute; reflexivity).
  rewrite forallb_forall in Hall.
  specialize (Hall (Z.to_nat x)). rewrite Z2Nat.id in Hall by lia.
  apply Nat.leb_le, Hall, in_seq. lia.
Qed.



(** C4, on the name.  For the local folder [/home/u/Maildir] on the host
    [host], when the clock reads 1700000000 and [rand] returns 123,
    [generate_filename(false)] returns
    [/home/u/Maildir/cur/1700000000.host1700000000123:2,S]: the directory is
    [cur/] and the flag [S], but between the host name and [:2] stand the
    seconds again and then the random number, so the name is not
    [<seconds>.<hostname><random-0..999>:2,S] for any seconds and any random
    number of 0..999. *)
Theorem generate_filename_breaks_template :
  let r := generate_filename demo_world 1 false demo_local in
  time demo_world 0 = 1700000000
  /\ Z.rem (rand demo_world 0) 1000 = 123
  /\ fst r = Some "/home/u/Maildir/cur/1700000000.host1700000000123:2,S"
  /\ fst r <> Some ("/home/u/Maildir/cur/"
                     ++ template_name false "host" 1700000000 123)
  /\ forall t x, 0 <= x <= 999 ->
       fst r <> Some ("/home/u/Maildir/cur/" ++ template_name false "host" t x).
Proof.
  cbv zeta.
  assert (Hnever : forall t x, 0 <= x <= 999 ->
            fst (generate_filename demo_world 1 false demo_local)
            <> Some ("/home/u/Maildir/cur/" ++ template_name false "host" t x)).
  { intros t x Hx.
    change (fst (generate_filename demo_world 1 false demo_local))
      with (Some ("/home/u/Maildir/cur/"
                    ++ "1700000000" ++ String "." ("host" ++ "1700000000123:2,S"))).
    unfold template_name. intros [= H].
    change "1700000000.host1700000000123:2,S"
      with ("1700000000" ++ String "." "host1700000000123:2,S") in H.
    apply split_at_dot in H as [_ H]; [|reflexivity|apply no_dot_dec].
    injection H as H. apply (f_equal String.length) in H.
    rewrite length_append in H. cbn [String.length] in H.
    pose proof (dec_short x Hx). lia. }
  repeat split; try reflexivity.
  - apply Hnever. lia.
  - exact Hnever.
Qed.

(** * Further properties of the class *)

(** ** What no call changes *)

Lemma call_keeps_identity w op m :
  m_path (self (call w op m)) = m_path (self m)
  /\ m_imap (self (call w op m)) = m_imap (self m).
Proof.
  assert (Hupd : m_path (self (snd (update_cache w m))) = m_path (self m)
                 /\ m_imap (self (snd (update_cache w m))) = m_imap (self m)).
  { rewrite update_cache_run. cbv zeta. cbn [snd].
    destruct (m_imap (self m)) eqn:Himap; [now split|].
    destruct (newest w (m_path (self m)) =? m_modified (self m));
      cbn; now split. }
  destruct op as [| | | | | | | |fuel msg|fuel b|]; cbn [call].
  - now split.
  - now split.
  - now split.
  - unfold unread_messages. run. exact Hupd.
  - unfold total_messages. run. exact Hupd.
  - exact Hupd.
  - rewrite last_modified_run. now split.
  - rewrite getMessages_run. now split.
  - rewrite saveMessage_run. cbv zeta.
    destruct (m_imap (self m) || names_remote (m_path (self m))); [now split|].
    destruct (generate_filename_effects w fuel false (log [Enter MsaveMessage] m))
      as [Hself _]. cbv zeta in Hself.
    destruct (fst (generate_filename w fuel false (log [Enter MsaveMessage] m)));
      cbn [snd]; rewrite ?self_log, Hself, ?self_log; now split.
  - destruct (generate_filename_effects w fuel b m) as [-> _]. now split.
  - rewrite bump_mtime_run. now split.
Qed.

(** X1.  Whatever public methods are called on a folder after its
    construction, in whatever worlds and in whatever order, [path()] still
    returns the name the constructor was given, [is_maildir()] the flag it
    was given and [is_imap()] its negation: no method writes [m_path] or
    [m_imap]. *)
Theorem identity_is_fixed name is_local (calls : list (World * Op)) :
  let m := after calls (boot (new_CMaildir name is_local)) in
  fst (path m) = name
  /\ fst (is_maildir m) = is_local
  /\ fst (is_imap m) = negb is_local.
Proof.
  cbv zeta.
  assert (H : forall m,
            m_path (self (after calls m)) = m_path (self m)
            /\ m_imap (self (after calls m)) = m_imap (self m)).
  { induction calls as [|[w op] calls IH]; intros m; [now split|].
    cbn [after fold_left fst snd]. fold (after calls (call w op m)).
    destruct (IH (call w op m)) as [-> ->]. apply call_keeps_identity. }
  destruct (H (boot (new_CMaildir name is_local))) as [Hp Hi].
  unfold is_maildir. run. rewrite Hp, Hi. cbn. now destruct is_local.
Qed.

(** X2.  Only the queries (through [update_cache]) and [bump_mtime] write
    the object: [path], [is_maildir], [is_imap], [last_modified],
    [getMessages], [generate_filename] and [saveMessage], on either of its
    paths and whether or not the filename loop comes back, leave every field
    as it was.  In particular a save does not touch the cached counts. *)
Theorem readers_keep_object w fuel b msg m :
  self (snd (path m)) = self m
  /\ self (snd (is_maildir m)) = self m
  /\ self (snd (is_imap m)) = self m
  /\ self (snd (last_modified w m)) = self m
  /\ self (snd (getMessages w m)) = self m
  /\ self (snd (generate_filename w fuel b m)) = self m
  /\ self (snd (saveMessage w fuel msg m)) = self m.
Proof.
  destruct (generate_filename_effects w fuel b m) as [Hgen _].
  rewrite last_modified_run, getMessages_run, saveMessage_run. cbv zeta.
  repeat split; try exact Hgen.
  destruct (m_imap (self m) || names_remote (m_path (self m))); [reflexivity|].
  destruct (generate_filename_effects w fuel false (log [Enter MsaveMessage] m))
    as [Hself _]. cbv zeta in Hself.
  destruct (fst (generate_filename w fuel false (log [Enter MsaveMessage] m)));
    cbn [snd]; now rewrite ?self_log, Hself, ?self_log.
Qed.

(** ** The cache of a local folder *)

Lemma newest_nonneg w p : 0 <= newest w p.
Proof. unfold newest. apply Z.le_max_l. Qed.

Lemma scans_rescan w f :
  scans (Enter Mupdate_cache :: last_modified_trace f ++ rescan_trace w f) = 1%nat.
Proof.
  unfold last_modified_trace, rescan_trace, getMessages_trace, scans.
  change (Enter Mupdate_cache :: ?t) with ([Enter Mupdate_cache] ++ t)%list.
  change (Enter MgetMessages :: ?t) with ([Enter MgetMessages] ++ t)%list.
  rewrite !entered_app, !entered_scan_of, entered_is_new.
  now destruct (m_imap f).
Qed.

(** A query that finds another time than the cached one: the object it
    leaves, the scan it makes and the value it returns. *)
Lemma ask_miss w q m :
  m_imap (self m) = false ->
  newest w (m_path (self m)) <> m_modified (self m) ->
  self (snd (ask w q m)) = rescanned w (newest w (m_path (self m))) (self m)
  /\ scans (fresh m (snd (ask w q m))) = 1%nat
  /\ fst (ask w q m)
     = cached q (rescanned w (newest w (m_path (self m))) (self m)).
Proof.
  intros Himap Hmiss. apply Z.eqb_neq in Hmiss.
  rewrite ask_run, update_cache_run. cbv zeta. cbn [fst snd].
  rewrite Himap, Hmiss, fresh_with_self_log, self_with_self, scans_rescan.
  now repeat split.
Qed.

(** What a rescan leaves in the counters when the enumeration fits in an
    [int]. *)
Lemma rescanned_counts w last_mod f q :
  Z.of_nat (length (messages_of w (m_path f))) <= Int.INT_MAX ->
  cached q (rescanned w last_mod f)
  = Some (Z.of_nat
            (match q with
             | Total => length (messages_of w (m_path f))
             | Unread => length (filter (CMessage_is_new w)
                                   (messages_of w (m_path f)))
             end)).
Proof.
  intros Hfit. destruct q; cbn [cached rescanned m_total m_unread].
  - apply iter_incr_in_range.
    pose proof (unread_of_le w (messages_of w (m_path f))).
    unfold unread_of in *. lia.
  - now rewrite to_int_in_range by (unfold Int.INT_MAX in *; lia).
Qed.

Example first_query_demo :
  fst (ask demo_world Unread demo_local) = Some 2
  /\ fst (ask empty_world Total demo_local) = Some 0.
Proof. split; reflexivity. Qed.

(** X3.  [last_modified()] of a local folder is never negative, so the -1
    the constructor stores never passes for a valid cache: a query on a local
    folder whose cached time is negative always scans, exactly once, stores
    the directory time and returns the count of that scan, the number of
    entries of [cur/] and [new/] that are not directories for
    [total_messages] and the number of those classified new for
    [unread_messages]. *)
Theorem first_query_scans w q m :
  m_imap (self m) = false ->
  m_modified (self m) < 0 ->
  let r := ask w q m in
  let all := fst (getMessages w m) in
  0 <= fst (last_modified w m)
  /\ scans (fresh m (snd r)) = 1%nat
  /\ m_modified (self (snd r)) = fst (last_modified w m)
  /\ (Z.of_nat (length all) <= Int.INT_MAX ->
      fst r = Some (Z.of_nat
                      (match q with
                       | Total => length all
                       | Unread => length (filter (CMessage_is_new w) all)
                       end))).
Proof.
  cbv zeta. intros Himap Hneg.
  pose proof (newest_nonneg w (m_path (self m))) as Hpos.
  destruct (ask_miss w q m Himap ltac:(lia)) as (Hself & Hscans & Hret).
  rewrite last_modified_run, getMessages_run, Himap. cbn [fst].
  rewrite Hself, Hret. repeat split; auto.
  apply rescanned_counts.
Qed.

Lemma first_query_scans_witness :
  fst (ask demo_world Total demo_local) = Some 3
  /\ fst (ask demo_world Unread demo_local) = Some 2.
Proof.
  split.
  - destruct (first_query_scans demo_world Total demo_local eq_refl eq_refl)
      as (_ & _ & _ & H).
    apply H. vm_compute. discriminate.
  - destruct (first_query_scans demo_world Unread demo_local eq_refl eq_refl)
      as (_ & _ & _ & H).
    apply H. vm_compute. discriminate.
Defined.

(** X4.  When [cur/] and [new/] list nothing but directories, or nothing at
    all (the scanner returns an empty list for a path it cannot read), the
    first query on a local folder returns 0, for the total as for the unread
    count. *)
Theorem empty_folder_counts_zero w q m :
  m_imap (self m) = false ->
  m_modified (self m) < 0 ->
  (forall file,
     In file (CDirectory_entries w (m_path (self m) ++ "/cur/")
              ++ CDirectory_entries w (m_path (self m) ++ "/new/")) ->
     CFile_is_directory w file = true) ->
  fst (getMessages w m) = [] /\ fst (ask w q m) = Some 0.
Proof.
  intros Himap Hneg Hdirs.
  assert (Hnone : messages_of w (m_path (self m)) = []).
  { unfold messages_of, files_in. rewrite <- filter_app.
    replace (filter _ _) with (@nil string); [reflexivity|].
    symmetry.
    induction (CDirectory_entries w (m_path (self m) ++ "/cur/")
               ++ CDirectory_entries w (m_path (self m) ++ "/new/"))%list
      as [|file l IH]; [reflexivity|].
    cbn [filter]. rewrite (Hdirs file (or_introl eq_refl)). cbn [negb].
    apply IH. intros f Hf. apply Hdirs. now right. }
  pose proof (newest_nonneg w (m_path (self m))) as Hpos.
  destruct (ask_miss w q m Himap ltac:(lia)) as (_ & _ & Hret).
  rewrite getMessages_run. cbn [fst]. split; [exact Hnone|].
  rewrite Hret, rescanned_counts; rewrite Hnone; [now destruct q|].
  cbn. unfold Int.INT_MAX. lia.
Qed.

Lemma empty_folder_counts_zero_witness :
  fst (ask empty_world Total demo_local) = Some 0
  /\ fst (ask demo_world Unread demo_missing) = Some 0.
Proof.
  split.
  - apply (empty_folder_counts_zero empty_world Total demo_local);
      [reflexivity | reflexivity |].
    cbn. intros file [<-|[<-|[<-|[<-|[]]]]]; reflexivity.
  - apply (empty_folder_counts_zero demo_world Unread demo_missing);
      [reflexivity | reflexivity |].
    cbn. intros file [].
Defined.

Lemma call_keeps_counts w op m :
  Z.of_nat (length (messages_of w (m_path (self m)))) <= Int.INT_MAX ->
  counts_ok (self m) -> counts_ok (self (call w op m)).
Proof.
  intros Hfit Hok.
  assert (Hupd : counts_ok (self (snd (update_cache w m)))).
  { rewrite update_cache_run. cbv zeta. cbn [snd].
    destruct (m_imap (self m)); [exact Hok|].
    destruct (newest w (m_path (self m)) =? m_modified (self m)); [exact Hok|].
    rewrite self_with_self. unfold counts_ok.
    pose proof (rescanned_counts w (newest w (m_path (self m))) (self m) Total Hfit) as Ht.
    pose proof (rescanned_counts w (newest w (m_path (self m))) (self m) Unread Hfit) as Hu.
    cbn [cached] in Ht, Hu. rewrite Ht, Hu.
    pose proof (unread_of_le w (messages_of w (m_path (self m)))).
    unfold unread_of in *. lia. }
  destruct op as [| | | | | | | |fuel msg|fuel b|]; cbn [call].
  - exact Hok.
  - exact Hok.
  - exact Hok.
  - unfold unread_messages. run. exact Hupd.
  - unfold total_messages. run. exact Hupd.
  - exact Hupd.
  - rewrite last_modified_run. exact Hok.
  - rewrite getMessages_run. exact Hok.
  - rewrite saveMessage_run. cbv zeta.
    destruct (m_imap (self m) || names_remote (m_path (self m))); [exact Hok|].
    destruct (generate_filename_effects w fuel false (log [Enter MsaveMessage] m))
      as [Hself _]. cbv zeta in Hself.
    destruct (fst (generate_filename w fuel false (log [Enter MsaveMessage] m)));
      cbn [snd]; rewrite ?self_log, Hself; exact Hok.
  - destruct (generate_filename_effects w fuel b m) as [-> _]. exact Hok.
  - rewrite bump_mtime_run. exact Hok.
Qed.

(** X5.  As long as every enumeration fits in an [int], the two counters
    stay consistent through any sequence of calls on a folder: they are
    either both still unassigned or both assigned, with 0 <= unread <= total.
    No call assigns one without the other, and [bump_mtime], the saves and
    the readers never touch them. *)
Theorem counters_stay_consistent name is_local (calls : list (World * Op)) :
  (forall w op, In (w, op) calls ->
     Z.of_nat (length (fst (getMessages w (boot (new_CMaildir name is_local)))))
     <= Int.INT_MAX) ->
  counts_ok (self (after calls (boot (new_CMaildir name is_local)))).
Proof.
  intros Hfit.
  assert (H : forall m, m_path (self m) = name -> counts_ok (self m) ->
                        counts_ok (self (after calls m))).
  { induction calls as [|[w op] calls IH]; intros m Hname Hok; [exact Hok|].
    cbn [after fold_left fst snd]. fold (after calls (call w op m)).
    apply IH.
    - intros w' op' Hin. apply (Hfit w' op'). now right.
    - destruct (call_keeps_identity w op m) as [-> _]. exact Hname.
    - apply call_keeps_counts; [|exact Hok].
      specialize (Hfit w op (or_introl eq_refl)).
      rewrite getMessages_run in Hfit. cbn [fst] in Hfit.
      cbn [boot self new_CMaildir m_path] in Hfit. now rewrite Hname. }
  apply H; [reflexivity | exact I].
Qed.

Lemma counters_stay_consistent_witness :
  counts_ok (self (after [(demo_world, Op_bump_mtime);
                          (demo_world, Op_total_messages);
                          (empty_world, Op_saveMessage 1 demo_message)]
                     demo_local)).
Proof.
  apply (counters_stay_consistent "/home/u/Maildir" true).
  intros w op [H|[H|[H|[]]]]; injection H as <- _; vm_compute; discriminate.
Defined.

(** X6.  [bump_mtime] invalidates the cache of a local folder: when the
    cached time is the directory time, so that a query would have answered
    from the cache, the query after one [bump_mtime] scans the folder again,
    exactly once, puts the directory time back into [m_modified] and returns
    the count of that scan. *)
Theorem bump_invalidates_local_cache w q m :
  m_imap (self m) = false ->
  m_modified (self m) = fst (last_modified w m) ->
  m_modified (self m) < Int.TIME_MAX ->
  let m1 := snd (bump_mtime m) in
  let r := ask w q m1 in
  let all := fst (getMessages w m) in
  scans (fresh m (snd (ask w q m))) = 0%nat
  /\ scans (fresh m1 (snd r)) = 1%nat
  /\ m_modified (self (snd r)) = m_modified (self m)
  /\ (Z.of_nat (length all) <= Int.INT_MAX ->
      fst r = Some (Z.of_nat
                      (match q with
                       | Total => length all
                       | Unread => length (filter (CMessage_is_new w) all)
                       end))).
Proof.
  cbv zeta. intros Himap. rewrite last_modified_run, Himap. cbn [fst].
  intros Hvalid Hmax.
  pose proof (newest_nonneg w (m_path (self m))) as Hpos.
  assert (Hbump : m_modified (self (snd (bump_mtime m))) = m_modified (self m) + 1).
  { rewrite bump_mtime_run. cbn.
    apply to_time_t_in_range. unfold Int.TIME_MAX in *. lia. }
  assert (Hpath : m_path (self (snd (bump_mtime m))) = m_path (self m))
    by now rewrite bump_mtime_run.
  assert (Himap1 : m_imap (self (snd (bump_mtime m))) = false)
    by now rewrite bump_mtime_run.
  destruct (ask_miss w q (snd (bump_mtime m)) Himap1) as (Hself & Hscans & Hret).
  { rewrite Hpath, Hbump. lia. }
  rewrite getMessages_run. cbn [fst]. rewrite Hself, Hret, Hpath.
  split; [|split; [exact Hscans|split; [now rewrite Hvalid|]]].
  - rewrite ask_run, update_cache_run. cbv zeta. cbn [snd].
    rewrite Himap, <- Hvalid, Z.eqb_refl, fresh_log.
    unfold last_modified_trace. now rewrite Himap.
  - intros Hfit. rewrite rescanned_counts; rewrite Hpath; auto.
Qed.

Lemma bump_invalidates_local_cache_witness :
  let m := snd (ask demo_world Total demo_local) in
  scans (fresh m (snd (ask demo_world Total m))) = 0%nat
  /\ scans (fresh (snd (bump_mtime m))
              (snd (ask demo_world Total (snd (bump_mtime m))))) = 1%nat.
Proof.
  cbv zeta.
  destruct (bump_invalidates_local_cache demo_world Total
              (snd (ask demo_world Total demo_local)))
    as (Hhit & Hmiss & _); [reflexivity | reflexivity | reflexivity |].
  split; [exact Hhit | exact Hmiss].
Defined.

(** ** Bumping *)

Lemma set_m_modified_same f : set_m_modified (m_modified f) f = f.
Proof. now destruct f. Qed.

Lemma bumped_self n : forall m,
  - 2 ^ 63 <= m_modified (self m) ->
  m_modified (self m) + Z.of_nat n <= Int.TIME_MAX ->
  self (bumped n m) = set_m_modified (m_modified (self m) + Z.of_nat n) (self m).
Proof.
  induction n as [|n IH]; intros m Hlo Hhi.
  - change (bumped 0 m) with m. cbn [Z.of_nat]. rewrite Z.add_0_r.
    symmetry. apply set_m_modified_same.
  - change (bumped (S n) m) with (snd (bump_mtime (bumped n m))).
    rewrite bump_mtime_run. cbn [snd]. rewrite self_with_self, IH by lia.
    unfold set_m_modified. cbn [m_path m_imap m_modified m_total m_unread].
    rewrite to_time_t_in_range by (unfold Int.TIME_MAX in *; lia).
    f_equal. lia.
Qed.

(** X7.  On a remote folder [n] calls of [bump_mtime] add up: afterwards
    [last_modified()] returns the time before them plus [n] (the sum staying
    a [time_t]).  They change nothing else, and the queries do not notice
    them: [total_messages] and [unread_messages] return after the bumps what
    they returned before, and scan nothing. *)
Theorem bumps_add_up w q n m :
  m_imap (self m) = true ->
  - 2 ^ 63 <= m_modified (self m) ->
  m_modified (self m) + Z.of_nat n <= Int.TIME_MAX ->
  fst (last_modified w (bumped n m)) = fst (last_modified w m) + Z.of_nat n
  /\ fst (ask w q (bumped n m)) = fst (ask w q m)
  /\ scans (fresh (bumped n m) (snd (ask w q (bumped n m)))) = 0%nat
  /\ m_path (self (bumped n m)) = m_path (self m)
  /\ m_total (self (bumped n m)) = m_total (self m)
  /\ m_unread (self (bumped n m)) = m_unread (self m).
Proof.
  intros Himap Hlo Hhi.
  pose proof (bumped_self n m Hlo Hhi) as Hself.
  rewrite !last_modified_run, !ask_run, !update_cache_run. cbv zeta.
  cbn [fst snd]. rewrite Hself. cbn [set_m_modified m_imap m_path m_modified
                                      m_total m_unread].
  rewrite Himap, fresh_log, !self_log, Hself.
  repeat split; now destruct q.
Qed.

Lemma bumps_add_up_witness :
  fst (last_modified demo_world (bumped 3 demo_remote)) = -1 + 3.
Proof.
  apply (bumps_add_up demo_world Total 3 demo_remote);
    [reflexivity | vm_compute; discriminate | vm_compute; discriminate].
Defined.

(** X8.  A local folder that has never been scanned can be made to answer
    from its empty cache: when neither [cur] nor [new] contributes a time, so
    that [last_modified()] is 0, one [bump_mtime] on the freshly built folder
    lifts the cached time from -1 to 0, and the next query takes this for a
    valid cache, scans nothing and returns a counter that no statement has
    assigned. *)
Theorem bump_before_first_scan w q name :
  let m := boot (new_CMaildir name true) in
  let m1 := snd (bump_mtime m) in
  fst (last_modified w m) = 0 ->
  m_modified (self m1) = 0
  /\ scans (fresh m1 (snd (ask w q m1))) = 0%nat
  /\ fst (ask w q m1) = None.
Proof.
  cbv zeta. rewrite last_modified_run, bump_mtime_run. cbn [fst snd].
  cbn [boot self new_CMaildir m_imap m_path m_modified]. intros Hzero.
  rewrite ask_run, update_cache_run. cbv zeta. cbn [fst snd].
  rewrite !self_with_self.
  cbn [set_m_modified m_imap m_path m_modified m_total m_unread].
  change (Int.to_time_t (-1 + 1)) with 0.
  cbn [new_CMaildir m_imap m_path]. rewrite Hzero. cbn [Z.eqb].
  rewrite fresh_log. split; [reflexivity|]. split; [reflexivity|].
  now destruct q.
Qed.

Lemma bump_before_first_scan_witness :
  fst (ask demo_world Total (snd (bump_mtime demo_missing))) = None.
Proof.
  apply (bump_before_first_scan demo_world Total "/nonexistent"). reflexivity.
Defined.

(** ** Saving into a local folder *)

Lemma not_routed_remote f :
  ~ routed_remote f -> m_imap f || names_remote (m_path f) = false.
Proof. rewrite routed_remote_spec. apply not_true_is_false. Qed.

(** X9.  [saveMessage] does not look at what [generate_filename] returns:
    on the local path, when the folder path fails [CFile::is_maildir], it
    still calls [CFile::copy], once, with the empty string as destination,
    and returns whatever that copy returns.  Neither the clock nor the
    random generator is read, and nothing is tested for existence. *)
Theorem saveMessage_invalid_folder w fuel msg m :
  ~ routed_remote (self m) ->
  CFile_is_maildir w (m_path (self m)) = false ->
  let r := saveMessage w fuel msg m in
  fst r = Some (CFile_copy w (msg_path msg) "")
  /\ fresh m (snd r)
     = [Enter MsaveMessage; Enter Mgenerate_filename;
        Eis_maildir (m_path (self m)); Ecopy (msg_path msg) ""]
  /\ time_calls (snd r) = time_calls m
  /\ rand_calls (snd r) = rand_calls m.
Proof.
  cbv zeta. intros Hlocal Hbad. apply not_routed_remote in Hlocal.
  rewrite saveMessage_run. cbv zeta. rewrite Hlocal.
  rewrite generate_filename_run. cbv zeta. rewrite self_log, Hbad.
  cbn [fst snd]. rewrite !log_log, fresh_log. now repeat split.
Qed.

Lemma saveMessage_invalid_folder_witness :
  copied (fresh demo_missing
            (snd (saveMessage demo_world 0 demo_message demo_missing)))
  = [("/tmp/draft.eml", "")].
Proof.
  destruct (saveMessage_invalid_folder demo_world 0 demo_message demo_missing)
    as (_ & H & _).
  - intros [H|[_ H]]; [discriminate H | apply H; reflexivity].
  - reflexivity.
  - cbv zeta in H. rewrite H. reflexivity.
Defined.

(** X10.  On the local path into a folder that passes [CFile::is_maildir],
    when the [k]-th name tried under [cur/] is the first that does not exist
    and the loop is given the time to reach it, [saveMessage] tests the
    names before it in turn, copies the message file to that name, once,
    and returns what the copy returns; the name is built with the flag [S];
    nothing reaches the proxy. *)
Theorem saveMessage_local_copies w fuel msg m k :
  let dir := m_path (self m) ++ "/cur/" in
  let hostname := substring 0 1023 (gethostname w) in
  let try := fun a =>
    dir ++ file_name false hostname (time w (time_calls m + a))
             (rand w (rand_calls m + a)) in
  let r := saveMessage w fuel msg m in
  ~ routed_remote (self m) ->
  CFile_is_maildir w (m_path (self m)) = true ->
  (forall a, (a < k)%nat -> CFile_exists w (try a) = true) ->
  CFile_exists w (try k) = false ->
  (k < fuel)%nat ->
  fst r = Some (CFile_copy w (msg_path msg) (try k))
  /\ copied (fresh m (snd r)) = [(msg_path msg, try k)]
  /\ tested (fresh m (snd r)) = map try (seq 0 (S k))
  /\ sent (fresh m (snd r)) = [].
Proof.
  cbv zeta. intros Hlocal Hok Hbusy Hfree Hk. apply not_routed_remote in Hlocal.
  rewrite saveMessage_run. cbv zeta. rewrite Hlocal.
  rewrite generate_filename_run. cbv zeta. rewrite self_log, Hok.
  cbn [time_calls rand_calls log]. unfold target_dir.
  rewrite (search_found w false _ _ fuel _ _ k Hbusy Hfree Hk).
  cbn [fst snd]. split; [reflexivity|].
  erewrite fresh_of; [|cbn [trace log ticked]; rewrite <- !List.app_assoc; reflexivity].
  unfold copied, tested, sent. rewrite !flat_map_app.
  fold (tested (loop_trace w false (m_path (self m) ++ "/cur/")
                  (substring 0 1023 (gethostname w)) (S k)
                  (time_calls m) (rand_calls m))).
  fold (sent (loop_trace w false (m_path (self m) ++ "/cur/")
                (substring 0 1023 (gethostname w)) (S k)
                (time_calls m) (rand_calls m))).
  fold (copied (loop_trace w false (m_path (self m) ++ "/cur/")
                  (substring 0 1023 (gethostname w)) (S k)
                  (time_calls m) (rand_calls m))).
  rewrite tested_loop_trace, sent_loop_trace.
  assert (Hcopied : forall n i j,
            copied (loop_trace w false (m_path (self m) ++ "/cur/")
                      (substring 0 1023 (gethostname w)) n i j) = []).
  { induction n as [|n IH]; intros i j; [reflexivity|].
    cbn [loop_trace]. apply (IH (S i) (S j)). }
  rewrite Hcopied. cbn [flat_map app]. rewrite !app_nil_r.
  now repeat split.
Qed.

Lemma saveMessage_local_copies_witness :
  copied (fresh demo_local (snd (saveMessage busy_world 2 demo_message demo_local)))
  = [("/tmp/draft.eml", "/home/u/Maildir/cur/1700000001.host1700000001124:2,S")].
Proof.
  destruct (saveMessage_local_copies busy_world 2 demo_message demo_local 1)
    as (_ & H & _).
  - intros [H|[_ H]]; [discriminate H | apply H; reflexivity].
  - reflexivity.
  - intros [|a] Ha; [reflexivity | lia].
  - reflexivity.
  - lia.
  - cbv zeta in H. rewrite H. reflexivity.
Defined.

(** ** More on the filename *)


Example generate_filename_twice_demo :
  fst (generate_filename frozen_world 1 false demo_local)
  = fst (generate_filename frozen_world 1 false
           (snd (generate_filename frozen_world 1 false demo_local))).
Proof. reflexivity. Qed.

(** X12.  [generate_filename] reserves nothing: it returns a path that does
    not exist and leaves it non-existent.  Called again before the file has
    been created, in a second in which the clock has not moved and with a
    random draw that leaves the same remainder modulo 1000, it returns the
    same path a second time. *)
Theorem generate_filename_repeats w fuel fuel' b m :
  let r1 := generate_filename w (S fuel) b m in
  let r2 := generate_filename w (S fuel') b (snd r1) in
  CFile_is_maildir w (m_path (self m)) = true ->
  CFile_exists w (candidate w b (target_dir b (m_path (self m)))
                    (substring 0 1023 (gethostname w))
                    (time_calls m) (rand_calls m)) = false ->
  time w (S (time_calls m)) = time w (time_calls m) ->
  Z.rem (rand w (S (rand_calls m))) 1000 = Z.rem (rand w (rand_calls m)) 1000 ->
  fst r2 = fst r1
  /\ fst r1 = Some (candidate w b (target_dir b (m_path (self m)))
                      (substring 0 1023 (gethostname w))
                      (time_calls m) (rand_calls m))
  /\ time_calls (snd r1) = S (time_calls m).
Proof.
  cbv zeta. intros Hok Hfree Htime Hrand.
  rewrite (generate_filename_run w (S fuel') b).
  rewrite !(generate_filename_run w (S fuel) b m). cbv zeta. rewrite Hok.
  cbn [search]. rewrite Hfree. cbn [negb fst snd].
  cbn [self log ticked time_calls rand_calls]. rewrite Hok.
  rewrite !Nat.add_1_r.
  assert (Hsame : candidate w b (target_dir b (m_path (self m)))
                    (substring 0 1023 (gethostname w))
                    (S (time_calls m)) (S (rand_calls m))
                  = candidate w b (target_dir b (m_path (self m)))
                      (substring 0 1023 (gethostname w))
                      (time_calls m) (rand_calls m)).
  { unfold candidate, file_name. now rewrite Htime, Hrand. }
  rewrite Hsame, Hfree. cbn [negb fst]. now repeat split.
Qed.

Lemma generate_filename_repeats_witness :
  fst (generate_filename frozen_world 1 false
         (snd (generate_filename frozen_world 1 false demo_local)))
  = fst (generate_filename frozen_world 1 false demo_local).
Proof.
  apply (generate_filename_repeats frozen_world 0 0 false demo_local);
    reflexivity.
Defined.

(** ** More on the enumeration *)

(** X13.  [getMessages] looks at the path and at nothing else of the
    object: two folders with the same path, whatever their remote flags,
    cached times and counters, get the same messages through the same calls
    of the scanner.  It keeps no result either: a second call lists [cur/]
    and [new/] again and returns the same messages as long as the world is
    the same. *)
Theorem getMessages_depends_on_path_only w m m' :
  m_path (self m) = m_path (self m') ->
  fst (getMessages w m) = fst (getMessages w m')
  /\ fresh m (snd (getMessages w m)) = fresh m' (snd (getMessages w m'))
  /\ fst (getMessages w (snd (getMessages w m))) = fst (getMessages w m)
  /\ listed (fresh m (snd (getMessages w (snd (getMessages w m)))))
     = [m_path (self m) ++ "/cur/"; m_path (self m) ++ "/new/";
        m_path (self m) ++ "/cur/"; m_path (self m) ++ "/new/"].
Proof.
  intros Hpath. rewrite !getMessages_run. cbn [fst snd].
  rewrite !self_log, log_log, !fresh_log, <- Hpath.
  repeat split.
  unfold getMessages_trace.
  change (Enter MgetMessages :: ?t) with ([Enter MgetMessages] ++ t)%list.
  now rewrite !listed_app, !listed_scan_of.
Qed.

Lemma getMessages_depends_on_path_only_witness :
  fst (getMessages demo_world (boot (new_CMaildir "/home/u/Maildir" false)))
  = fst (getMessages demo_world demo_local).
Proof.
  apply (getMessages_depends_on_path_only demo_world
           (boot (new_CMaildir "/home/u/Maildir" false)) demo_local).
  reflexivity.
Defined.

(** ** What leaves the process *)

Lemma copied_app t1 t2 : copied (t1 ++ t2) = (copied t1 ++ copied t2)%list.
Proof. apply flat_map_app. Qed.

Lemma quiet_silent t : forallb quiet t = true -> sent t = [] /\ copied t = [].
Proof.
  induction t as [|e t IH]; [now split|].
  cbn [forallb]. intros H. apply andb_true_iff in H as [He Ht].
  destruct (IH Ht) as [Hs Hc].
  destruct e; try discriminate He; cbn; now rewrite ?Hs, ?Hc.
Qed.

Lemma quiet_probes l : forallb quiet (map Eis_directory l) = true.
Proof. induction l; simpl; auto. Qed.

Lemma quiet_is_new l : forallb quiet (map Eis_new l) = true.
Proof. induction l; simpl; auto. Qed.

Lemma quiet_loop_trace w b dir hostname : forall n i j,
  forallb quiet (loop_trace w b dir hostname n i j) = true.
Proof. induction n as [|n IH]; intros i j; [reflexivity|]. apply (IH (S i) (S j)). Qed.

Lemma quiet_scan_of w dir : forallb quiet (scan_of w dir) = true.
Proof. unfold scan_of. cbn [forallb quiet andb]. apply quiet_probes. Qed.

Lemma quiet_getMessages_trace w p : forallb quiet (getMessages_trace w p) = true.
Proof.
  unfold getMessages_trace. cbn [forallb quiet andb].
  now rewrite forallb_app, !quiet_scan_of.
Qed.

Lemma quiet_rescan_trace w f : forallb quiet (rescan_trace w f) = true.
Proof.
  unfold rescan_trace.
  now rewrite forallb_app, quiet_getMessages_trace, quiet_is_new.
Qed.

Lemma fresh_same m : fresh m m = [].
Proof. apply fresh_of. now rewrite app_nil_r. Qed.

Lemma update_cache_quiet w m :
  forallb quiet (fresh m (snd (update_cache w m))) = true.
Proof.
  rewrite update_cache_run. cbv zeta. cbn [snd].
  assert (Hlm : forallb quiet (last_modified_trace (self m)) = true)
    by (unfold last_modified_trace; now destruct (m_imap (self m))).
  destruct (m_imap (self m)); [now rewrite fresh_log|].
  destruct (newest w (m_path (self m)) =? m_modified (self m)).
  - rewrite fresh_log. cbn [forallb quiet]. exact Hlm.
  - rewrite fresh_with_self_log. cbn [forallb quiet andb].
    now rewrite forallb_app, Hlm, quiet_rescan_trace.
Qed.

Lemma generate_filename_quiet w fuel b m :
  exists t, trace (snd (generate_filename w fuel b m)) = (trace m ++ t)%list
            /\ forallb quiet t = true.
Proof.
  rewrite generate_filename_run. cbv zeta.
  destruct (CFile_is_maildir w (m_path (self m))); cbn [snd];
    eexists; (split; [reflexivity|]).
  - rewrite forallb_app, quiet_loop_trace. reflexivity.
  - reflexivity.
Qed.

Example proxy_untouched_demo :
  sent (trace (after [(demo_world, Op_total_messages);
                      (demo_world, Op_generate_filename 1 true);
                      (demo_world, Op_bump_mtime);
                      (demo_world, Op_getMessages)] demo_remote)) = [].
Proof. reflexivity. Qed.

(** X14.  Only [saveMessage] writes anything out.  No other public method
    sends a command to the proxy or asks for a file to be copied, and one
    call of [saveMessage] does at most one of the two, once: one command on
    the remote path, at most one copy on the local path. *)
Theorem only_saveMessage_writes_out w op m :
  let t := fresh m (call w op m) in
  match op with
  | Op_saveMessage _ _ => (length (sent t) + length (copied t) <= 1)%nat
  | _ => sent t = [] /\ copied t = []
  end.
Proof.
  cbv zeta.
  destruct op as [| | | | | | | |fuel msg|fuel b|]; cbn [call];
    try (unfold unread_messages, total_messages; run).
  - rewrite fresh_same. now split.
  - rewrite fresh_same. now split.
  - rewrite fresh_same. now split.
  - apply quiet_silent, update_cache_quiet.
  - apply quiet_silent, update_cache_quiet.
  - apply quiet_silent, update_cache_quiet.
  - rewrite last_modified_run. cbn [snd]. rewrite fresh_log.
    unfold last_modified_trace. destruct (m_imap (self m)); now split.
  - rewrite getMessages_run. cbn [snd]. rewrite fresh_log.
    apply quiet_silent, quiet_getMessages_trace.
  - rewrite saveMessage_run. cbv zeta.
    destruct (m_imap (self m) || names_remote (m_path (self m))).
    + cbn [snd]. rewrite fresh_log. cbn. lia.
    + destruct (generate_filename_quiet w fuel false (log [Enter MsaveMessage] m))
        as (t & Ht & Hq).
      destruct (quiet_silent t Hq) as [Hs Hc]. cbn [trace log] in Ht.
      destruct (fst (generate_filename w fuel false (log [Enter MsaveMessage] m)))
        as [p|]; cbn [snd].
      * rewrite (fresh_of m _ ([Enter MsaveMessage] ++ t ++ [Ecopy (msg_path msg) p])).
        -- rewrite !sent_app, !copied_app, Hs, Hc. cbn. lia.
        -- cbn [trace log]. rewrite Ht. now rewrite <- !List.app_assoc.
      * rewrite (fresh_of m _ ([Enter MsaveMessage] ++ t)).
        -- rewrite !sent_app, !copied_app, Hs, Hc. cbn. lia.
        -- rewrite Ht. now rewrite <- !List.app_assoc.
  - destruct (generate_filename_quiet w fuel b m) as (t & Ht & Hq).
    rewrite (fresh_of m _ t Ht). now apply quiet_silent.
  - rewrite bump_mtime_run. cbn [snd]. rewrite fresh_with_self_log. now split.
Qed.

(** ** Two queries in a row *)

Lemma ask_leaves_directory_time w q m :
  m_imap (self m) = false ->
  m_modified (self (snd (ask w q m))) = newest w (m_path (self m))
  /\ m_path (self (snd (ask w q m))) = m_path (self m)
  /\ m_imap (self (snd (ask w q m))) = false.
Proof.
  intros Himap. rewrite ask_run, update_cache_run. cbv zeta. cbn [snd].
  rewrite Himap.
  destruct (newest w (m_path (self m)) =? m_modified (self m)) eqn:Hhit.
  - apply Z.eqb_eq in Hhit. now rewrite self_log.
  - now rewrite self_with_self.
Qed.

Example changed_time_demo :
  fst (ask empty_world Total (snd (ask demo_world Total demo_local))) = Some 3
  /\ fst (ask old_world Total (snd (ask empty_world Total demo_local))) = Some 3.
Proof. split; reflexivity. Qed.

(** X15.  A query on a local folder always leaves the directory time of its
    moment in [m_modified].  So when the next query finds another directory
    time, it scans again, exactly once, and answers with the counts of the
    folder as it is then, whatever the first query returned; what decides is
    the time alone, not whether the content changed. *)
Theorem changed_time_rescans w w' q q' m :
  m_imap (self m) = false ->
  fst (last_modified w' m) <> fst (last_modified w m) ->
  let m1 := snd (ask w q m) in
  let r := ask w' q' m1 in
  let all := fst (getMessages w' m) in
  m_modified (self m1) = fst (last_modified w m)
  /\ scans (fresh m1 (snd r)) = 1%nat
  /\ m_modified (self (snd r)) = fst (last_modified w' m)
  /\ (Z.of_nat (length all) <= Int.INT_MAX ->
      fst r = Some (Z.of_nat
                      (match q' with
                       | Total => length all
                       | Unread => length (filter (CMessage_is_new w') all)
                       end))).
Proof.
  cbv zeta. intros Himap. rewrite !last_modified_run, getMessages_run, Himap.
  cbn [fst]. intros Hchanged.
  destruct (ask_leaves_directory_time w q m Himap) as (Htime & Hpath & Himap1).
  destruct (ask_miss w' q' (snd (ask w q m)) Himap1) as (Hself & Hscans & Hret).
  { rewrite Hpath, Htime. exact Hchanged. }
  rewrite Hself, Hret, Hpath.
  split; [exact Htime|]. split; [exact Hscans|]. split; [reflexivity|].
  intros Hfit. rewrite rescanned_counts; rewrite Hpath; auto.
Qed.

Lemma changed_time_rescans_witness :
  fst (ask old_world Unread (snd (ask demo_world Total demo_local))) = Some 2.
Proof.
  destruct (changed_time_rescans demo_world old_world Total Unread demo_local)
    as (_ & _ & _ & H).
  - reflexivity.
  - vm_compute. discriminate.
  - apply H. vm_compute. discriminate.
Defined.
